(** * A verified model of the WordPress publishing relay ([app.py])

    The relay accepts a JSON request, checks a static key, and starts a
    background pipeline that downloads a thumbnail, uploads it to the CMS
    media endpoint, creates a post and notifies a workflow webhook.

    The development is a shallow embedding: Python values are a tagged
    union, every function of [app.py] is a computation in a small
    exception/state/trace monad, and the outside world (HTTP peers, the
    temporary directory) is an oracle record the theorems quantify over. *)

From stdpp Require Import base tactics option list strings pretty gmap.
From Stdlib Require Import ZArith Ascii String Lia.

Local Open Scope string_scope.
Local Open Scope Z_scope.

(** ** Python values *)

Module Py.

(** Python [float] as produced by the JSON decoder: the two non-finite
    constants, or the decimal literal [m * 10^e] that was read. *)
Inductive pyfloat :=
| FNaN
| FInf (negative : bool)
| FDec (m e : Z).

(** The values a decoded JSON document is made of.  A [dict] keeps its
    items in insertion order; the keys of a decoded object are strings.
    Strings are byte strings holding the UTF-8 encoding of the text. *)
#[warnings="-register-all"]
Inductive pyval :=
| PNone
| PBool (b : bool)
| PInt (z : Z)
| PFloat (f : pyfloat)
| PStr (s : string)
| PList (l : list pyval)
| PDict (d : list (string * pyval)).

(** A decimal [m * 10^e] is read as the double [0.0] exactly when its
    magnitude does not exceed half of the least subnormal [2^-1074]
    (round to nearest, ties to even). *)
Definition float_is_zero (f : pyfloat) : bool :=
  match f with
  | FNaN | FInf _ => false
  | FDec m e =>
      (m =? 0) || ((e <? 0) && (Z.abs m * 2 ^ 1075 <=? 10 ^ (- e)))
  end.

(** A decimal [m * 10^e] is read as an infinity when its magnitude
    reaches the midpoint between the largest double and [2^1024]. *)
Definition float_overflows (f : pyfloat) : bool :=
  match f with
  | FNaN | FInf _ => false
  | FDec m e =>
      if 0 <=? e then 2 ^ 1024 - 2 ^ 970 <=? Z.abs m * 10 ^ e
      else (2 ^ 1024 - 2 ^ 970) * 10 ^ (- e) <=? Z.abs m
  end.

(** [bool(v)]: the truth value Python's [if]/[and] use. *)
Definition truthy (v : pyval) : bool :=
  match v with
  | PNone => false
  | PBool b => b
  | PInt z => negb (z =? 0)
  | PFloat f => negb (float_is_zero f)
  | PStr s => negb (String.eqb s "")
  | PList l => match l with [] => false | _ => true end
  | PDict d => match d with [] => false | _ => true end
  end.

(** Lookup in a dict built by successive insertion of the items: the
    last item with the key is the one that stays. *)
Fixpoint dict_lookup (k : string) (d : list (string * pyval)) : option pyval :=
  match d with
  | [] => None
  | (k', v) :: d' =>
      match dict_lookup k d' with
      | Some w => Some w
      | None => if String.eqb k' k then Some v else None
      end
  end.

(** [d.get(k)]: the value of the key, [None] when the key is absent. *)
Definition dict_get (d : list (string * pyval)) (k : string) : pyval :=
  default PNone (dict_lookup k d).

#[global] Arguments dict_get : simpl never.
#[global] Arguments truthy : simpl nomatch.

End Py.
Export Py.

(** ** The JSON decoder ([json.loads])

    The decoder follows CPython's [json.decoder]/[json.scanner]: the
    whitespace set, the number pattern (an optional minus sign, an
    integer part without leading zeros, an optional fraction, an optional
    exponent; a prefix match, so that trailing text is trailing data),
    the constants [NaN], [Infinity] and [-Infinity], strict strings (no
    raw control characters) and the error for trailing data.  An error carries the
    message of the [JSONDecodeError]; the position suffix is left out.

    Two limits of the interpreter cut the decoding short with an
    exception that is not a [JSONDecodeError]: the scanner enters a
    recursive call for every array and object it opens, and raises
    [RecursionError] when the calls left at the place of the call are
    used up; and the conversion of an integer literal raises
    [ValueError] when the literal has more digits than
    [sys.get_int_max_str_digits()] allows.  Both are raised where the
    scanner stands, so a text can meet them before its syntax error. *)

Module Json.

(** The limits in force at a call of [json.loads]: the number of arrays
    and objects that can be open at once, and the digit limit of [int]
    (0 when there is none). *)
Record limits := Limits {
  max_nesting : nat;
  int_max_str_digits : Z
}.

(** A limit of the interpreter met by the scanner: one array or object
    too many is opened, or an integer literal has too many digits. *)
Inductive limit_reached :=
| RecursionLimit (in_object : bool) (* RecursionError *)
| DigitLimit (digits : Z).          (* ValueError of the integer conversion *)

(** How a call of [json.loads] fails: on a syntax error or on a limit. *)
Inductive failure :=
| DecodeError (msg : string)        (* json.JSONDecodeError *)
| LimitReached (l : limit_reached).

(** An integer literal of [n] digits is refused: the conversion checks
    literals of more than 640 digits against the limit, when there is
    one. *)
Definition digits_exceeded (L : limits) (n : Z) : bool :=
  (640 <? n) && ((0 <? int_max_str_digits L) && (int_max_str_digits L <? n)).

Definition dq : ascii := "034"%char.
Definition backslash : ascii := "092"%char.

Definition is_ws (c : ascii) : bool :=
  Ascii.eqb c " " || Ascii.eqb c "009" || Ascii.eqb c "010" || Ascii.eqb c "013".

Fixpoint skip_ws (s : string) : string :=
  match s with
  | String c r => if is_ws c then skip_ws r else s
  | EmptyString => s
  end.

Definition digit_of (c : ascii) : option Z :=
  let n := Z.of_N (N_of_ascii c) in
  if (48 <=? n) && (n <=? 57) then Some (n - 48) else None.

Definition hex_of (c : ascii) : option Z :=
  let n := Z.of_N (N_of_ascii c) in
  if (48 <=? n) && (n <=? 57) then Some (n - 48)
  else if (65 <=? n) && (n <=? 70) then Some (n - 55)
  else if (97 <=? n) && (n <=? 102) then Some (n - 87)
  else None.

(** [s] starts with the character [c]: the rest of [s] after it. *)
Definition eat (c : ascii) (s : string) : option string :=
  match s with
  | String a r => if Ascii.eqb a c then Some r else None
  | EmptyString => None
  end.

(** The longest run of decimal digits at the head of [s], folded into
    [acc]; returns the value, the number of digits and the rest. *)
Fixpoint take_digits (acc : Z) (n : Z) (s : string) : Z * Z * string :=
  match s with
  | String c r =>
      match digit_of c with
      | Some d => take_digits (10 * acc + d) (n + 1) r
      | None => (acc, n, s)
      end
  | EmptyString => (acc, n, s)
  end.

(** The integer part: [0], or a non-zero digit and more digits; with
    the number of its digits. *)
Definition match_int (s : string) : option (Z * Z * string) :=
  match s with
  | String c r =>
      match digit_of c with
      | Some d =>
          if d =? 0 then Some (0, 1, r)
          else Some (take_digits d 1 r)
      | None => None
      end
  | EmptyString => None
  end.

(** The optional fraction, a dot and at least one digit: the digits are
    appended to [m]. *)
Definition match_frac (m : Z) (s : string) : option (Z * Z * string) :=
  match eat "." s with
  | Some r =>
      let '(m', n, r') := take_digits m 0 r in
      if n =? 0 then None else Some (m', n, r')
  | None => None
  end.

(** The optional exponent: [e] or [E], an optional sign, digits. *)
Definition match_exp (s : string) : option (Z * string) :=
  match s with
  | String c r =>
      if Ascii.eqb c "e" || Ascii.eqb c "E" then
        let '(neg, r1) :=
          match eat "-" r with
          | Some r1 => (true, r1)
          | None =>
              match eat "+" r with
              | Some r1 => (false, r1)
              | None => (false, r)
              end
          end in
        let '(x, n, r2) := take_digits 0 0 r1 in
        if n =? 0 then None else Some (if neg then - x else x, r2)
      else None
  | EmptyString => None
  end.

(** [NUMBER_RE.match]: an [int] when there is neither fraction nor
    exponent, a [float] otherwise.  The second component is the number
    of digits that the integer conversion is given (0 for a float). *)
Definition match_number (s : string) : option (pyval * Z * string) :=
  let '(neg, s1) :=
    match eat "-" s with Some r => (true, r) | None => (false, s) end in
  match match_int s1 with
  | None => None
  | Some (i, k, r) =>
      let sgn (z : Z) := if neg then - z else z in
      match match_frac i r with
      | Some (m, n, r1) =>
          match match_exp r1 with
          | Some (x, r2) => Some (PFloat (FDec (sgn m) (x - n)), 0, r2)
          | None => Some (PFloat (FDec (sgn m) (- n)), 0, r1)
          end
      | None =>
          match match_exp r with
          | Some (x, r2) => Some (PFloat (FDec (sgn i) x), 0, r2)
          | None => Some (PInt (sgn i), k, r)
          end
      end
  end.

Definition byte (z : Z) : ascii := ascii_of_N (Z.to_N z).

(** UTF-8 encoding of a code point (a lone surrogate is written as the
    three bytes of its scalar form). *)
Definition utf8 (cp : Z) : string :=
  if cp <? 128 then String (byte cp) ""
  else if cp <? 2048 then
    String (byte (192 + cp / 64)) (String (byte (128 + cp mod 64)) "")
  else if cp <? 65536 then
    String (byte (224 + cp / 4096))
      (String (byte (128 + (cp / 64) mod 64))
         (String (byte (128 + cp mod 64)) ""))
  else
    String (byte (240 + cp / 262144))
      (String (byte (128 + (cp / 4096) mod 64))
         (String (byte (128 + (cp / 64) mod 64))
            (String (byte (128 + cp mod 64)) ""))).

Definition hex4 (a b c d : ascii) : option Z :=
  match hex_of a, hex_of b, hex_of c, hex_of d with
  | Some x, Some y, Some z, Some w => Some (((x * 16 + y) * 16 + z) * 16 + w)
  | _, _, _, _ => None
  end.

Inductive presult (A : Type) :=
| POk (a : A) (rest : string)
| PErr (msg : string)
| PLimit (l : limit_reached)
| PFuel.
Arguments POk {A} a rest.
Arguments PErr {A} msg.
Arguments PLimit {A} l.
Arguments PFuel {A}.

(** The scanner stopped at a limit of the interpreter. *)
Definition is_limit {A} (r : presult A) : bool :=
  match r with PLimit _ => true | _ => false end.

(** The character an escape letter stands for. *)
Definition escape_of (e : ascii) : option ascii :=
  if Ascii.eqb e dq then Some dq
  else if Ascii.eqb e backslash then Some backslash
  else if Ascii.eqb e "/" then Some "/"%char
  else if Ascii.eqb e "b" then Some "008"%char
  else if Ascii.eqb e "f" then Some "012"%char
  else if Ascii.eqb e "n" then Some "010"%char
  else if Ascii.eqb e "r" then Some "013"%char
  else if Ascii.eqb e "t" then Some "009"%char
  else None.

Definition is_high_surrogate (cp : Z) : bool := (55296 <=? cp) && (cp <=? 56319).
Definition is_low_surrogate (cp : Z) : bool := (56320 <=? cp) && (cp <=? 57343).

(** [scanstring]: the text after an opening quote, up to the closing
    one, with the escapes decoded; [acc] is the decoded prefix.  A high
    surrogate escape followed by a low surrogate escape is one code
    point. *)
Fixpoint scanstring (acc : string) (s : string) : presult string :=
  match s with
  | EmptyString => PErr "Unterminated string starting at"
  | String c r =>
      if Ascii.eqb c dq then POk acc r
      else if Ascii.eqb c backslash then
        match r with
        | EmptyString => PErr "Unterminated string starting at"
        | String e r1 =>
            if Ascii.eqb e "u" then
              match r1 with
              | String h1 (String h2 (String h3 (String h4 r2))) =>
                  match hex4 h1 h2 h3 h4 with
                  | None => PErr "Invalid \uXXXX escape"
                  | Some hi =>
                      let single := scanstring (acc ++ utf8 hi) r2 in
                      match r2 with
                      | String b (String u (String l1 (String l2
                          (String l3 (String l4 r3))))) =>
                          if is_high_surrogate hi && Ascii.eqb b backslash
                             && Ascii.eqb u "u"
                          then
                            match hex4 l1 l2 l3 l4 with
                            | None => PErr "Invalid \uXXXX escape"
                            | Some lo =>
                                if is_low_surrogate lo then
                                  scanstring
                                    (acc ++ utf8 (65536 + (hi - 55296) * 1024
                                                  + (lo - 56320))) r3
                                else single
                            end
                          else single
                      | _ => single
                      end
                  end
              | _ => PErr "Invalid \uXXXX escape"
              end
            else
              match escape_of e with
              | Some x => scanstring (acc ++ String x "") r1
              | None => PErr "Invalid \escape"
              end
        end
      else if (N_of_ascii c <? 32)%N then PErr "Invalid control character at"
      else scanstring (acc ++ String c "") r
  end.

(** [s] starts with [p]: the rest of [s] after [p]. *)
Fixpoint strip_prefix (p s : string) : option string :=
  match p, s with
  | EmptyString, _ => Some s
  | String a p', String b s' =>
      if Ascii.eqb a b then strip_prefix p' s' else None
  | String _ _, EmptyString => None
  end.

(** The scalar cases of [scan_once]: constants and numbers. *)
Definition scan_atom (L : limits) (s : string) : presult pyval :=
  match strip_prefix "null" s with
  | Some r => POk PNone r
  | None =>
  match strip_prefix "true" s with
  | Some r => POk (PBool true) r
  | None =>
  match strip_prefix "false" s with
  | Some r => POk (PBool false) r
  | None =>
  match match_number s with
  | Some (v, k, r) => if digits_exceeded L k then PLimit (DigitLimit k) else POk v r
  | None =>
  match strip_prefix "NaN" s with
  | Some r => POk (PFloat FNaN) r
  | None =>
  match strip_prefix "Infinity" s with
  | Some r => POk (PFloat (FInf false)) r
  | None =>
  match strip_prefix "-Infinity" s with
  | Some r => POk (PFloat (FInf true)) r
  | None => PErr "Expecting value"
  end end end end end end end.

(** [scan_once], [JSONArray] and [JSONObject].  [depth] is the number
    of arrays and objects that are open; one more is opened only while
    the limit allows it.  [fuel] bounds the number of nested calls of
    the model; [json_loads] supplies enough of it ([scan_fuel]). *)
Fixpoint scan_once (L : limits) (fuel : nat) (depth : nat) (s : string)
  : presult pyval :=
  match fuel with
  | O => PFuel
  | S fuel =>
      match s with
      | EmptyString => PErr "Expecting value"
      | String c r =>
          if Ascii.eqb c dq then
            match scanstring "" r with
            | POk t r' => POk (PStr t) r'
            | PErr m => PErr m
            | PLimit f => PLimit f
            | PFuel => PFuel
            end
          else if Ascii.eqb c "{" then
            if (max_nesting L <=? depth)%nat then PLimit (RecursionLimit true)
            else
              match eat "}" (skip_ws r) with
              | Some r' => POk (PDict []) r'
              | None => parse_members L fuel (S depth) (skip_ws r) []
              end
          else if Ascii.eqb c "[" then
            if (max_nesting L <=? depth)%nat then PLimit (RecursionLimit false)
            else
              match eat "]" (skip_ws r) with
              | Some r' => POk (PList []) r'
              | None => parse_elems L fuel (S depth) (skip_ws r) []
              end
          else scan_atom L s
      end
  end
with parse_elems (L : limits) (fuel : nat) (depth : nat) (s : string)
    (acc : list pyval) : presult pyval :=
  match fuel with
  | O => PFuel
  | S fuel =>
      match scan_once L fuel depth s with
      | POk v r =>
          match eat "]" (skip_ws r) with
          | Some r' => POk (PList (rev (v :: acc))) r'
          | None =>
              match eat "," (skip_ws r) with
              | Some r' => parse_elems L fuel depth (skip_ws r') (v :: acc)
              | None => PErr "Expecting ',' delimiter"
              end
          end
      | PErr m => PErr m
      | PLimit f => PLimit f
      | PFuel => PFuel
      end
  end
with parse_members (L : limits) (fuel : nat) (depth : nat) (s : string)
    (acc : list (string * pyval)) : presult pyval :=
  match fuel with
  | O => PFuel
  | S fuel =>
      match eat dq s with
      | Some r =>
          match scanstring "" r with
          | POk k r1 =>
              match eat ":" (skip_ws r1) with
              | Some r2 =>
                  match scan_once L fuel depth (skip_ws r2) with
                  | POk v r3 =>
                      match eat "}" (skip_ws r3) with
                      | Some r' => POk (PDict (rev ((k, v) :: acc))) r'
                      | None =>
                          match eat "," (skip_ws r3) with
                          | Some r' =>
                              parse_members L fuel depth (skip_ws r')
                                ((k, v) :: acc)
                          | None => PErr "Expecting ',' delimiter"
                          end
                      end
                  | PErr m => PErr m
                  | PLimit f => PLimit f
                  | PFuel => PFuel
                  end
              | None => PErr "Expecting ':' delimiter"
              end
          | PErr m => PErr m
          | PLimit f => PLimit f
          | PFuel => PFuel
          end
      | None => PErr "Expecting property name enclosed in double quotes"
      end
  end.

(** [JSONDecoder.decode] under the limits [L]: one value, surrounded by
    whitespace, and nothing else.  [inl] is the decoded value, [inr]
    tells how the call fails. *)
Definition json_loads (L : limits) (s : string) : pyval + failure :=
  match scan_once L (2 * String.length s + 1) 0 (skip_ws s) with
  | POk v r =>
      match skip_ws r with
      | EmptyString => inl v
      | _ => inr (DecodeError "Extra data")
      end
  | PErr m => inr (DecodeError m)
  | PLimit l => inr (LimitReached l)
  | PFuel => inr (LimitReached (RecursionLimit false))
  end.

(** The text is JSON: it decodes when no limit stands in the way (a text
    cannot open more arrays and objects than it has characters). *)
Definition json_valid (s : string) : bool :=
  match json_loads (Limits (String.length s) 0) s with
  | inl _ => true
  | inr _ => false
  end.

End Json.
Export Json.

(** ** Exceptions, outcomes and the effect monad *)

Module Effects.

(** The exception classes the program can meet, with the part of
    Python's class hierarchy its [except] clauses look at. *)
Inductive exn_class :=
| RequestException        (* requests.exceptions.RequestException *)
| HTTPError               (* raised by raise_for_status *)
| RequestsJSONDecodeError (* requests.exceptions.JSONDecodeError *)
| JSONDecodeError         (* json.JSONDecodeError *)
| ValueError
| TypeError
| AttributeError
| KeyError
| OverflowError
| RecursionError
| OSError
| FileExistsError
| OtherException.

Record exn := Exn { exn_cls : exn_class; exn_msg : string }.

(** [except requests.RequestException] *)
Definition is_RequestException (c : exn_class) : bool :=
  match c with
  | RequestException | HTTPError | RequestsJSONDecodeError => true
  | _ => false
  end.

(** [except json.JSONDecodeError] *)
Definition is_JSONDecodeError (c : exn_class) : bool :=
  match c with
  | JSONDecodeError | RequestsJSONDecodeError => true
  | _ => false
  end.

(** [except (TypeError, ValueError)] *)
Definition is_TypeError_or_ValueError (c : exn_class) : bool :=
  match c with
  | TypeError | ValueError | JSONDecodeError | RequestsJSONDecodeError => true
  | _ => false
  end.

(** [except Exception] *)
Definition is_Exception (c : exn_class) : bool := true.

Inductive outcome (A : Type) :=
| Ret (a : A)
| Raise (e : exn).
Arguments Ret {A} a.
Arguments Raise {A} e.

Inductive level := INFO | WARNING | ERROR.

Inductive header_value :=
| Plain (s : string)
| Basic (user password : string)   (* 'Basic ' + b64encode(user:password) *)
| Bearer (token : string).

(** The [fields] of the [MultipartEncoder]. *)
Record multipart_fields := MultipartFields {
  mf_filename : string;
  mf_file_content : string;
  mf_file_type : string;
  mf_alt_text : pyval;
  mf_caption : pyval;
  mf_description : pyval
}.

(** The arguments of the post template, in the order of the [%] tuple. *)
Record post_payload := PostPayload {
  pp_title : pyval;
  pp_author : pyval;
  pp_content : string;
  pp_status : pyval;
  pp_categories : pyval;
  pp_featured_media : pyval
}.

Inductive post_data :=
| DataMultipart (f : multipart_fields)
| DataText (p : post_payload).

(** What a run does to the outside world, in the order it does it. *)
Inductive event :=
| Log (lvl : level) (msg : string) (args : list pyval)
| HttpGet (url username password : pyval)
| HttpPost (url : string) (data : post_data) (hdrs : list (string * header_value))
| SessionPost (url : string) (body : pyval) (hdrs : list (string * header_value))
| FileCreate (name : string)
| FileWrite (name content : string)
| FileRead (name : string)
| FileUnlink (name : string)
| ThreadStart (req_data : pyval).

Record run (S A : Type) := Run {
  result : outcome A;
  state_after : S;
  events : list event
}.
Arguments Run {S A} result state_after events.
Arguments result {S A} r.
Arguments state_after {S A} r.
Arguments events {S A} r.

(** A computation over a state [S] that returns or raises and leaves a
    trace of events. *)
Definition M (S A : Type) : Type := S → run S A.

Definition ret {S A} (a : A) : M S A := λ s, Run (Ret a) s [].

Definition raise {S A} (e : exn) : M S A := λ s, Run (Raise e) s [].

(** The run [r], after the events [evs]. *)
Definition after {S A} (evs : list event) (r : run S A) : run S A :=
  match r with
  | Run o s evs' => Run o s (evs ++ evs')
  end.

Definition bind {S A B} (m : M S A) (k : A → M S B) : M S B :=
  λ s,
    match m s with
    | Run (Ret a) s1 evs => after evs (k a s1)
    | Run (Raise e) s1 evs => Run (Raise e) s1 evs
    end.

Definition emit {S} (e : event) : M S unit := λ s, Run (Ret tt) s [e].

Definition get_state {S} : M S S := λ s, Run (Ret s) s [].

Definition put_state {S} (s : S) : M S unit := λ _, Run (Ret tt) s [].

Definition of_outcome {S A} (o : outcome A) : M S A := λ s, Run o s [].

(** [try: m  except C1: h1  except C2: h2 ...]: the first clause whose
    class test accepts the exception handles it; an exception raised by
    a handler is not handled here. *)
Fixpoint find_handler {S A} (hs : list ((exn_class → bool) * (exn → M S A)))
    (e : exn) : option (M S A) :=
  match hs with
  | [] => None
  | (c, h) :: hs' => if c (exn_cls e) then Some (h e) else find_handler hs' e
  end.

Definition try_except {S A} (m : M S A)
    (hs : list ((exn_class → bool) * (exn → M S A))) : M S A :=
  λ s,
    match m s with
    | Run (Ret a) s1 evs => Run (Ret a) s1 evs
    | Run (Raise e) s1 evs =>
        match find_handler hs e with
        | Some h => after evs (h s1)
        | None => Run (Raise e) s1 evs
        end
    end.

(** [try: m  finally: f]: [f] runs on every exit of [m]; the outcome is
    the one of [m] unless [f] itself raises. *)
Definition try_finally {S A} (m : M S A) (f : M S unit) : M S A :=
  λ s,
    match m s with
    | Run o s1 evs =>
        match f s1 with
        | Run (Ret _) s2 evs' => Run o s2 (evs ++ evs')
        | Run (Raise e) s2 evs' => Run (Raise e) s2 (evs ++ evs')
        end
    end.

(** A function body with a local variable of type [L]: the state is
    extended by the local for the time of the body. *)
Definition with_local {S L A} (init : L) (m : M (S * L) A) : M S A :=
  λ s, match m (s, init) with Run o sl evs => Run o sl.1 evs end.

Definition lift {S L A} (m : M S A) : M (S * L) A :=
  λ sl, match m sl.1 with Run o s evs => Run o (s, sl.2) evs end.

Definition get_local {S L} : M (S * L) L := λ sl, Run (Ret sl.2) sl [].

Definition set_local {S L} (l : L) : M (S * L) unit :=
  λ sl, Run (Ret tt) (sl.1, l) [].

#[global] Instance M_ret {S} : MRet (M S) := λ A, ret.
#[global] Instance M_bind {S} : MBind (M S) := λ A B k m, bind m k.

Definition log {S} (lvl : level) (msg : string) (args : list pyval) : M S unit :=
  emit (Log lvl msg args).

End Effects.
Export Effects.

(** ** The outside world *)

Module World.

(** A [requests.Response]: the status line, the raw body, and what
    [response.json()] gives for it (a value, or the exception it raises). *)
Record http_response := HttpResponse {
  status_code : Z;
  content : string;
  json : outcome pyval
}.

Inductive io_op := IoCreate | IoWrite | IoClose | IoOpen | IoRead.

(** The world of one run: the limits of the interpreter where the
    program calls the JSON decoder, and the behaviour of the
    collaborators: the HTTP peers behind [requests] and [aiohttp], the
    multipart encoder, the names the temporary-file module draws, and
    the faults of the file operations. *)
Record env := Env {
  request_limits : limits;   (* at [request.json()], in the handler *)
  thread_limits : limits;    (* at [json.loads(categories)], in the thread *)
  requests_get : pyval → pyval → pyval → outcome http_response;
  requests_post :
    string → post_data → list (string * header_value) → outcome http_response;
  multipart_encoder : multipart_fields → outcome string;
  temp_names : list string;
  io_fault : io_op → option exn;
  session_post :
    string → pyval → list (string * header_value) → outcome (Z * outcome string)
}.

(** The temporary directory [tmp_dir]: file name to file content. *)
Abbreviation fs := (gmap string string).

(** [response.raise_for_status()] *)
Definition raise_for_status {S} (r : http_response) : M S unit :=
  if (400 <=? status_code r) && (status_code r <? 500) then
    raise (Exn HTTPError (pretty (status_code r) +:+ " Client Error"))
  else if (500 <=? status_code r) && (status_code r <? 600) then
    raise (Exn HTTPError (pretty (status_code r) +:+ " Server Error"))
  else mret tt.

Definition fault {S} (E : env) (op : io_op) : M S unit :=
  match io_fault E op with
  | Some e => raise e
  | None => mret tt
  end.

(** [tempfile.NamedTemporaryFile(dir=tmp_dir, delete=False, ...)]: the
    first drawn name that does not exist yet is created exclusively. *)
Definition NamedTemporaryFile (E : env) : M fs string :=
  fault E IoCreate;;
  s ← get_state;
  match List.find (λ n, bool_decide (s !! n = None)) (temp_names E) with
  | Some n =>
      put_state (<[n := ""]> s);;
      emit (FileCreate n);;
      mret n
  | None => raise (Exn FileExistsError "No usable temporary file name found")
  end.

(** [temp_file.write(data)] *)
Definition file_write (E : env) (name data : string) : M fs unit :=
  fault E IoWrite;;
  s ← get_state;
  put_state (<[name := data]> s);;
  emit (FileWrite name data).

(** [temp_file.close()] *)
Definition file_close (E : env) (name : string) : M fs unit :=
  fault E IoClose.

(** [with open(name, 'rb') as file: file.read()] *)
Definition file_read (E : env) (name : string) : M fs string :=
  fault E IoOpen;;
  s ← get_state;
  match s !! name with
  | None => raise (Exn OSError "No such file or directory")
  | Some data =>
      fault E IoRead;;
      emit (FileRead name);;
      mret data
  end.

(** [os.unlink(name)].  The directory belongs to the process: removing
    a file that is there succeeds. *)
Definition unlink (name : string) : M fs unit :=
  s ← get_state;
  match s !! name with
  | None => raise (Exn OSError "No such file or directory")
  | Some _ =>
      put_state (delete name s);;
      emit (FileUnlink name)
  end.

End World.
Export World.

(** ** Python operations used by the program *)

Module Ops.

(** [a + '<suffix>'] for a string literal on the right. *)
Definition str_concat (a : pyval) (suffix : string) : outcome string :=
  match a with
  | PStr s => Ret (s +:+ suffix)
  | _ => Raise (Exn TypeError "unsupported operand type(s) for +")
  end.

(** ['Basic ' + base64.b64encode((username + ':' + password).encode()).decode()]:
    both operands of the concatenations have to be strings.  The header
    value is kept as the pair it encodes. *)
Definition basic_auth (username password : pyval) : outcome header_value :=
  match str_concat username ":" with
  | Ret _ =>
      match username, password with
      | PStr u, PStr p => Ret (Basic u p)
      | _, _ => Raise (Exn TypeError "can only concatenate str to str")
      end
  | Raise e => Raise e
  end.

(** [s.replace(c, by)] for a one-character pattern. *)
Fixpoint replace_char (c : ascii) (by_ : string) (s : string) : string :=
  match s with
  | EmptyString => EmptyString
  | String a r =>
      if Ascii.eqb a c then by_ +:+ replace_char c by_ r
      else String a (replace_char c by_ r)
  end.

(** [content.replace(quote, backslash quote).replace(newline, backslash n)] *)
Definition escape_content (content : pyval) : outcome string :=
  match content with
  | PStr s =>
      Ret (replace_char "010" (String backslash "n")
             (replace_char dq (String backslash (String dq "")) s))
  | _ => Raise (Exn AttributeError "object has no attribute 'replace'")
  end.

(** The argument of a [%d] conversion: a number is accepted, a float
    has to be finite. *)
Definition format_d (v : pyval) : outcome pyval :=
  match v with
  | PInt _ | PBool _ => Ret v
  | PFloat FNaN => Raise (Exn ValueError "cannot convert float NaN to integer")
  | PFloat (FInf _) =>
      Raise (Exn OverflowError "cannot convert float infinity to integer")
  | PFloat f =>
      if float_overflows f then
        Raise (Exn OverflowError "cannot convert float infinity to integer")
      else Ret v
  | _ => Raise (Exn TypeError "%d format: a real number is required")
  end.

(** [json.dumps(v)].  It raises [TypeError] on an object outside the JSON
    data model and [ValueError] on a circular structure; a [pyval] is a
    finite tree of JSON values with string keys, and [NaN]/[Infinity]
    are allowed by default, so it returns.  The encoder enters one
    recursive call for every array and object it opens, as the scanner
    that built the value did; a value that the decoder has built is
    taken to be encoded within the recursion limit.  The text is kept
    symbolic: the value stands for its serialisation. *)
Definition json_dumps (v : pyval) : outcome pyval := Ret v.

(** The exception of a failed [json.loads]: a [JSONDecodeError] for a
    syntax error; the [RecursionError] of the scanner and the
    [ValueError] of the integer conversion are not decode errors. *)
Definition exn_of_failure (L : limits) (f : failure) : exn :=
  match f with
  | DecodeError msg => Exn JSONDecodeError msg
  | LimitReached (RecursionLimit in_object) =>
      Exn RecursionError
        ("maximum recursion depth exceeded while decoding a JSON "
         +:+ (if in_object then "object" else "array")
         +:+ " from a unicode string")
  | LimitReached (DigitLimit digits) =>
      Exn ValueError
        ("Exceeds the limit (" +:+ pretty (int_max_str_digits L)
         +:+ " digits) for integer string conversion: value has "
         +:+ pretty digits
         +:+ " digits; use sys.set_int_max_str_digits() to increase the limit")
  end.

(** [json.loads(s)] as a Python call, under the limits [L]. *)
Definition py_json_loads (L : limits) (s : string) : outcome pyval :=
  match json_loads L s with
  | inl v => Ret v
  | inr f => Raise (exn_of_failure L f)
  end.

(** [obj.get(k)]: only a [dict] has the method. *)
Definition py_get (obj : pyval) (k : string) : outcome pyval :=
  match obj with
  | PDict d => Ret (dict_get d k)
  | _ => Raise (Exn AttributeError "object has no attribute 'get'")
  end.

(** [obj[k]] for a string key. *)
Definition py_getitem (obj : pyval) (k : string) : outcome pyval :=
  match obj with
  | PDict d =>
      match dict_lookup k d with
      | Some v => Ret v
      | None => Raise (Exn KeyError k)
      end
  | _ => Raise (Exn TypeError "object is not subscriptable by a string")
  end.

End Ops.
Export Ops.

(** ** The program ([app.py]) *)

Module App.

Definition API_KEY : string := "Sample_Key".

Definition media_url : string := "https://sits.com/wp-json/wp/v2/media/".
Definition posts_url : string := "https://site.com/wp-json/wp/v2/posts".
Definition notify_url : string := "https://app.daply.co/api/1.1/wf/finish/".

Section Pipeline.

Variable E : env.

(** [upload_image_to_wordpress].  The local [temp_file] starts as [None]
    and is read by the [finally] clause.  The body gives [Some id] for
    [return attachment_id] and [None] when control leaves the [try]
    statement towards the final [return None]. *)
Definition upload_image_to_wordpress
    (image_url alt description title username password : pyval) : M fs pyval :=
  with_local (None : option string) (
    r ← try_finally
      (try_except
         (lift (log INFO "Uploading image..." []);;
          lift (emit (HttpGet image_url username password));;
          response ← of_outcome (requests_get E image_url username password);
          raise_for_status response;;
          lift (log INFO "Image downloaded successfully" []);;
          name ← lift (NamedTemporaryFile E);
          set_local (Some name);;
          lift (file_write E name (content response));;
          lift (log INFO "Image saved to temporary file: %s" [PStr name]);;
          lift (file_close E name);;
          file_content ← lift (file_read E name);
          filename ← of_outcome (str_concat title ".jpg");
          let multipart_data :=
            MultipartFields filename file_content "image/jpg" alt title description in
          content_type ← of_outcome (multipart_encoder E multipart_data);
          auth ← of_outcome (basic_auth username password);
          let headers :=
            [("Content-Type", Plain content_type); ("Authorization", auth)] in
          lift (emit (HttpPost media_url (DataMultipart multipart_data) headers));;
          response ← of_outcome
            (requests_post E media_url (DataMultipart multipart_data) headers);
          raise_for_status response;;
          lift (log INFO "Image uploaded successfully" []);;
          response_data ← of_outcome (json response);
          attachment_id ← of_outcome (py_get response_data "id");
          mret (Some attachment_id))
         [(is_RequestException,
           λ e, lift (log ERROR "Error uploading image: %s" [PStr (exn_msg e)]);;
                mret None)])
      (temp_file ← get_local;
       match temp_file with
       | Some name =>
           lift (unlink name);;
           lift (log INFO "Temporary file deleted" [])
       | None => mret tt
       end);
    match r with
    | Some attachment_id => mret attachment_id
    | None => mret PNone
    end).

(** [notify_successful_post] *)
Definition notify_successful_post (post_id daprun_id : pyval) : M fs pyval :=
  try_except
    (let data :=
       PDict [("post_id", post_id); ("status", PStr "successful");
              ("daprun_id", daprun_id)] in
     let headers :=
       [("Content-Type", Plain "application/json");
        ("Authorization", Bearer "e498c614d60653c4dca590e36af58bb4")] in
     emit (SessionPost notify_url data headers);;
     response ← of_outcome (session_post E notify_url data headers);
     response_text ← of_outcome response.2;
     if response.1 =? 200 then
       log INFO ("Successfully notified: " +:+ notify_url) [];;
       mret (PBool true)
     else
       log WARNING ("Failed to notify: " +:+ notify_url +:+ ". Status code: "
                    +:+ pretty response.1) [];;
       log WARNING ("Response text: " +:+ response_text) [];;
       mret (PBool false))
    [(is_Exception,
      λ e, log ERROR ("Error in notify_successful_post: " +:+ exn_msg e) [];;
           mret (PBool false))].

(** [create_post_in_wordpress].  The body gives [Some response_data] for
    [return response_data] and [None] towards the final [return None]. *)
Definition create_post_in_wordpress
    (title author content status categories thumbnail_url alt description
     username password daprun_id : pyval) : M fs pyval :=
  r ← try_except
    (thumbnail_attachment_id ←
       upload_image_to_wordpress thumbnail_url alt description title
         username password;
     if truthy thumbnail_attachment_id then
       escaped ← of_outcome (escape_content content);
       dumped ← of_outcome (json_dumps categories);
       featured_media ← of_outcome (format_d thumbnail_attachment_id);
       let post_data :=
         PostPayload title author escaped status dumped featured_media in
       auth ← of_outcome (basic_auth username password);
       let headers :=
         [("Content-Type", Plain "application/json"); ("Authorization", auth)] in
       emit (HttpPost posts_url (DataText post_data) headers);;
       response ← of_outcome
         (requests_post E posts_url (DataText post_data) headers);
       raise_for_status response;;
       log INFO "Post created successfully" [];;
       response_data ← of_outcome (json response);
       post_id ← of_outcome (py_getitem response_data "id");
       notify_successful_post post_id daprun_id;;
       mret (Some response_data)
     else
       log ERROR "Failed to upload image, cannot create post" [];;
       mret None)
    [(is_RequestException,
      λ e, log ERROR "Error creating post: %s" [PStr (exn_msg e)];;
           mret None)];
  match r with
  | Some response_data => mret response_data
  | None => mret PNone
  end.

(** [process_media_and_post_async].  The [isinstance] tests on
    [categories] are the match on its tag; the categories step gives
    [None] where the source returns early. *)
Definition process_media_and_post_async (req_data : pyval) : M fs unit :=
  title ← of_outcome (py_get req_data "title");
  author ← of_outcome (py_get req_data "author");
  content ← of_outcome (py_get req_data "content");
  status ← of_outcome (py_get req_data "status");
  categories ← of_outcome (py_get req_data "categories");
  thumbnail_url ← of_outcome (py_get req_data "thumbnail_url");
  alt ← of_outcome (py_get req_data "alt_text");
  description ← of_outcome (py_get req_data "description");
  username ← of_outcome (py_get req_data "username");
  password ← of_outcome (py_get req_data "password");
  daprun_id ← of_outcome (py_get req_data "daprun_id");
  normalized ←
    match categories with
    | PStr s =>
        try_except
          (decoded ← of_outcome (py_json_loads (thread_limits E) s);
           mret (Some decoded))
          [(is_JSONDecodeError,
            λ e, log ERROR "Error processing categories: %s" [PStr (exn_msg e)];;
                 mret None)]
    | PList _ => mret (Some categories)
    | _ =>
        log ERROR
          "Categories should be a list or a JSON-encoded string representing a list" [];;
        mret None
    end;
  match normalized with
  | None => mret tt
  | Some categories =>
      if truthy title && truthy author && truthy content && truthy status
         && truthy categories && truthy thumbnail_url && truthy alt
         && truthy description && truthy username && truthy password
         && truthy daprun_id
      then
        log INFO "All required parameters are present" [];;
        create_post_in_wordpress title author content status categories
          thumbnail_url alt description username password daprun_id;;
        mret tt
      else log ERROR "Missing required parameters" []
  end.

(** [process_media_and_post]: the thread target; [asyncio.run] drives the
    coroutine to its end. *)
Definition process_media_and_post (req_data : pyval) : M fs unit :=
  process_media_and_post_async req_data.

End Pipeline.

(** *** The request handler *)

(** An incoming request: its header lines and what [request.text()]
    gives (the body text, or the exception raised while reading it). *)
Record request := Request {
  headers : list (string * string);
  text : outcome string
}.

Inductive response_body :=
| JsonBody (v : pyval)
| TextBody (s : string).

Record response := Response {
  status : Z;
  body : response_body
}.

(** [web.json_response({"message": msg}, status=code)] *)
Definition json_response (msg : string) (code : Z) : response :=
  Response code (JsonBody (PDict [("message", PStr msg)])).

Definition lower (c : ascii) : ascii :=
  let n := N_of_ascii c in
  if ((65 <=? n) && (n <=? 90))%N then ascii_of_N (n + 32) else c.

Fixpoint lowercase (s : string) : string :=
  match s with
  | EmptyString => EmptyString
  | String c r => String (lower c) (lowercase r)
  end.

(** [request.headers.get(name)]: header names compare without case, the
    first line with the name is taken. *)
Fixpoint headers_get (hs : list (string * string)) (name : string)
  : option string :=
  match hs with
  | [] => None
  | (k, v) :: hs' =>
      if String.eqb (lowercase k) (lowercase name) then Some v
      else headers_get hs' name
  end.

(** [request.json()]: [json.loads] of the body text, under the limits
    [L] of the place of the call. *)
Definition request_json {S} (L : limits) (rq : request) : M S pyval :=
  body ← of_outcome (text rq);
  of_outcome (py_json_loads L body).

(** [create_post].  The inner [try] gives [Some r] where its handler
    returns the response [r].  Starting the thread is the event
    [ThreadStart]. *)
Definition create_post {S} (L : limits) (rq : request) : M S response :=
  try_except
    (req_data ← request_json L rq;
     log INFO "Received request data: %s" [req_data];;
     let key := headers_get (headers rq) "key" in
     invalid ← try_except
       (of_outcome (json_dumps req_data);; mret None)
       [(is_TypeError_or_ValueError,
         λ e, log ERROR "Invalid JSON format: %s" [PStr (exn_msg e)];;
              mret (Some (json_response
                            ("Invalid JSON format: " +:+ exn_msg e) 400)))];
     match invalid with
     | Some r => mret r
     | None =>
         if bool_decide (key = Some API_KEY) then
           log INFO "Key authentication successful" [];;
           emit (ThreadStart req_data);;
           mret (json_response "Key authentication successful" 200)
         else
           log ERROR "Key authentication failed" [];;
           mret (json_response "Key authentication failed" 401)
     end)
    [(is_JSONDecodeError,
      λ e, log ERROR "Error processing request JSON: %s" [PStr (exn_msg e)];;
           mret (json_response "Invalid JSON format" 400));
     (is_Exception,
      λ e, log ERROR "Error processing request: %s" [PStr (exn_msg e)];;
           mret (json_response ("Internal server error: " +:+ exn_msg e) 500))].

(** [health] *)
Definition health (rq : request) : response := Response 200 (TextBody "OK").

(** *** One request, served *)

Definition started_threads (evs : list event) : list pyval :=
  omap (λ e, match e with ThreadStart d => Some d | _ => None end) evs.

(** The threads started by the handler, run one after the other; an
    exception that escapes a thread target ends that thread only. *)
Fixpoint run_threads (E : env) (ds : list pyval) (s : fs) : fs * list event :=
  match ds with
  | [] => (s, [])
  | d :: ds' =>
      let r := process_media_and_post E d s in
      let '(s', evs) := run_threads E ds' (state_after r) in
      (s', (events r ++ evs)%list)
  end.

(** The handler answers; the thread it started runs the pipeline. *)
Definition serve (E : env) (rq : request) (s : fs)
  : outcome response * fs * list event :=
  let r := create_post (request_limits E) rq s in
  let '(s', evs) := run_threads E (started_threads (events r)) (state_after r) in
  (result r, s', (events r ++ evs)%list).

End App.
Export App.

(** ** Observations on traces *)

Module Trace.

(** A call to one of the upstream HTTP services. *)
Definition is_upstream (e : event) : bool :=
  match e with
  | HttpGet _ _ _ | HttpPost _ _ _ | SessionPost _ _ _ => true
  | _ => false
  end.

(** The request of the Media Uploader. *)
Definition is_media_upload (e : event) : bool :=
  match e with
  | HttpPost url _ _ => String.eqb url media_url
  | _ => false
  end.

(** The request of the Post Creator to the posts endpoint. *)
Definition is_post_creation (e : event) : bool :=
  match e with
  | HttpPost url _ _ => String.eqb url posts_url
  | _ => false
  end.

(** The request of the Completion Notifier. *)
Definition is_notification (e : event) : bool :=
  match e with
  | SessionPost _ _ _ => true
  | _ => false
  end.

Definition is_thread_start (e : event) : bool :=
  match e with
  | ThreadStart _ => true
  | _ => false
  end.

Definition is_file_event (e : event) : bool :=
  match e with
  | FileCreate _ | FileWrite _ _ | FileRead _ | FileUnlink _ => true
  | _ => false
  end.

(** An event of the upload step: not a request to the posts endpoint,
    not a notification, not a thread start. *)
Definition upload_event (e : event) : bool :=
  negb (is_post_creation e) && negb (is_notification e)
  && negb (is_thread_start e).

(** [raise_for_status] lets the response pass. *)
Definition status_ok (r : http_response) : bool :=
  negb ((400 <=? status_code r) && (status_code r <? 600)).

(** Every [Q] event comes after some [P] event. *)
Definition precedes (P Q : event → bool) (evs : list event) : Prop :=
  ∀ pre e post, evs = (pre ++ e :: post)%list → Q e = true →
    ∃ e', e' ∈ pre ∧ P e' = true.

(** The same, as a check along the trace; [seen] tells whether a [P]
    event has been met. *)
Fixpoint guarded (P Q : event → bool) (seen : bool) (evs : list event) : bool :=
  match evs with
  | [] => true
  | e :: evs' => (negb (Q e) || seen) && guarded P Q (seen || P e) evs'
  end.

(** The file [n] is unlinked somewhere in the trace. *)
Fixpoint unlinked (n : string) (evs : list event) : bool :=
  match evs with
  | [] => false
  | FileUnlink m :: evs' => String.eqb n m || unlinked n evs'
  | _ :: evs' => unlinked n evs'
  end.

(** Every temporary file created in the trace is unlinked later in it. *)
Fixpoint temp_files_removed (evs : list event) : bool :=
  match evs with
  | [] => true
  | FileCreate n :: evs' => unlinked n evs' && temp_files_removed evs'
  | _ :: evs' => temp_files_removed evs'
  end.

End Trace.
Export Trace.

(** ** Vocabulary for the statements on requests *)

Module Req.

(** The required fields other than [categories], by their request keys. *)
Definition text_fields : list string :=
  ["title"; "author"; "content"; "status"; "thumbnail_url"; "alt_text";
   "description"; "username"; "password"; "daprun_id"].

(** The presence test of the pipeline on the fields of the request [d]
    and the categories value reached after normalisation. *)
Definition required_present (d : list (string * pyval)) (categories : pyval)
  : bool :=
  truthy (dict_get d "title") && truthy (dict_get d "author")
  && truthy (dict_get d "content") && truthy (dict_get d "status")
  && truthy categories && truthy (dict_get d "thumbnail_url")
  && truthy (dict_get d "alt_text") && truthy (dict_get d "description")
  && truthy (dict_get d "username") && truthy (dict_get d "password")
  && truthy (dict_get d "daprun_id").

(** The categories value passes the normalisation step: it is a list,
    or a string that [json.loads] decodes under the limits [L]. *)
Definition categories_accepted (L : limits) (c : pyval) : bool :=
  match c with
  | PList _ => true
  | PStr s => match json_loads L s with inl _ => true | inr _ => false end
  | _ => false
  end.

(** The pipeline from the presence test on, for the request fields [d]
    and the categories value [categories] reached after normalisation. *)
Definition check_and_create (E : env) (d : list (string * pyval))
    (categories : pyval) : M fs unit :=
  if required_present d categories then
    log INFO "All required parameters are present" [];;
    create_post_in_wordpress E (dict_get d "title") (dict_get d "author")
      (dict_get d "content") (dict_get d "status") categories
      (dict_get d "thumbnail_url") (dict_get d "alt_text")
      (dict_get d "description") (dict_get d "username")
      (dict_get d "password") (dict_get d "daprun_id");;
    mret tt
  else log ERROR "Missing required parameters" [].

(** The body the notifier sends. *)
Definition notification (post_id daprun_id : pyval) : pyval :=
  PDict [("post_id", post_id); ("status", PStr "successful");
         ("daprun_id", daprun_id)].

Definition notify_headers : list (string * header_value) :=
  [("Content-Type", Plain "application/json");
   ("Authorization", Bearer "e498c614d60653c4dca590e36af58bb4")].

End Req.
Export Req.

(** ** Sample worlds and requests *)

Module Samples.

(** The limits of a stock interpreter: the recursion limit of 1000
    leaves room for at most that many open arrays and objects, and
    [int] takes a literal of at most 4300 digits. *)
Definition cpython_limits : limits := Limits 1000 4300.

(** Texts that meet the limits: [n] arrays one inside the other, [n]
    arrays opened and never closed, an integer of [n] digits. *)
Fixpoint repeat_char (c : ascii) (n : nat) (s : string) : string :=
  match n with
  | O => s
  | S n => String c (repeat_char c n s)
  end.

Definition nested (n : N) : string :=
  repeat_char "[" (N.to_nat n) (repeat_char "]" (N.to_nat n) "").

Definition opened (n : N) : string := repeat_char "[" (N.to_nat n) "".

Definition digits (n : N) : string := repeat_char "7" (N.to_nat n) "".

(** Every collaborator answers well: the media endpoint gives the id
    [media_id], the posts endpoint the id 1234, the webhook status 200. *)
Definition env_with_media_id (media_id : pyval) : env := {|
  request_limits := cpython_limits;
  thread_limits := cpython_limits;
  requests_get := λ _ _ _,
    Ret (HttpResponse 200 "JFIF" (Raise (Exn RequestsJSONDecodeError "Expecting value")));
  requests_post := λ url _ _,
    if String.eqb url media_url
    then Ret (HttpResponse 201 "" (Ret (PDict [("id", media_id)])))
    else Ret (HttpResponse 201 "" (Ret (PDict [("id", PInt 1234)])));
  multipart_encoder := λ _, Ret "multipart/form-data; boundary=b";
  temp_names := ["tmp/0b5e_k3.jpg"];
  io_fault := λ _, None;
  session_post := λ _ _ _, Ret (200, Ret "ok")
|}.

Definition happy_env : env := env_with_media_id (PInt 77).

(** The media endpoint answers 500. *)
Definition media_down_env : env := {|
  request_limits := cpython_limits;
  thread_limits := cpython_limits;
  requests_get := requests_get happy_env;
  requests_post := λ url _ _,
    Ret (HttpResponse 500 "" (Raise (Exn RequestsJSONDecodeError "Expecting value")));
  multipart_encoder := multipart_encoder happy_env;
  temp_names := temp_names happy_env;
  io_fault := io_fault happy_env;
  session_post := session_post happy_env
|}.

(** Reading the temporary file back fails. *)
Definition read_fault_env : env := {|
  request_limits := cpython_limits;
  thread_limits := cpython_limits;
  requests_get := requests_get happy_env;
  requests_post := requests_post happy_env;
  multipart_encoder := multipart_encoder happy_env;
  temp_names := temp_names happy_env;
  io_fault := λ op,
    match op with
    | IoRead => Some (Exn OSError "Input/output error")
    | _ => None
    end;
  session_post := session_post happy_env
|}.

(** The webhook answers 503. *)
Definition webhook_down_env : env := {|
  request_limits := cpython_limits;
  thread_limits := cpython_limits;
  requests_get := requests_get happy_env;
  requests_post := requests_post happy_env;
  multipart_encoder := multipart_encoder happy_env;
  temp_names := temp_names happy_env;
  io_fault := io_fault happy_env;
  session_post := λ _ _ _, Ret (503, Ret "unavailable")
|}.

(** A complete request, with the given title and categories value. *)
Definition fields (title categories : pyval) : list (string * pyval) :=
  [("title", title); ("author", PStr "7"); ("content", PStr "Hello");
   ("status", PStr "publish"); ("categories", categories);
   ("thumbnail_url", PStr "https://img.example/a.jpg");
   ("alt_text", PStr "alt"); ("description", PStr "desc");
   ("username", PStr "editor"); ("password", PStr "secret");
   ("daprun_id", PStr "run-B")].

Definition int_list (l : list Z) : pyval := PList (PInt <$> l).

(** The text of a JSON string literal with the content [s]. *)
Definition quoted (s : string) : string := String dq (s +:+ String dq "").

Definition with_key (k : string) (body : string) : request :=
  Request [("Content-Type", "application/json"); ("Key", k)] (Ret body).

Definition without_key (body : string) : request :=
  Request [("Content-Type", "application/json")] (Ret body).

End Samples.
Export Samples.

(** ** Further observations on runs *)

Module Observe.

(** The upstream services a run can call. *)
Inductive call_kind :=
| Download
| MediaUpload
| PostCreation
| Notification
| OtherCall.

Definition kind (e : event) : option call_kind :=
  match e with
  | HttpGet _ _ _ => Some Download
  | HttpPost url _ _ =>
      if String.eqb url media_url then Some MediaUpload
      else if String.eqb url posts_url then Some PostCreation
      else Some OtherCall
  | SessionPost _ _ _ => Some Notification
  | _ => None
  end.

(** The upstream calls of a trace, in their order. *)
Definition upstream_kinds (evs : list event) : list call_kind := omap kind evs.

(** The order of the calls of a complete run. *)
Definition call_order : list call_kind :=
  [Download; MediaUpload; PostCreation; Notification].

Definition is_unlink (e : event) : bool :=
  match e with
  | FileUnlink _ => true
  | _ => false
  end.

(** The webhook answered with status 200 and its body could be read. *)
Definition notified_ok (o : outcome (Z * outcome string)) : bool :=
  match o with
  | Ret (st, Ret _) => st =? 200
  | _ => false
  end.

(** No double quote of [s] stands without a backslash right before it;
    [escaped] tells whether the character before [s] is a backslash. *)
Fixpoint quotes_escaped_from (escaped : bool) (s : string) : bool :=
  match s with
  | EmptyString => true
  | String c r =>
      (negb (Ascii.eqb c dq) || escaped)
      && quotes_escaped_from (Ascii.eqb c backslash) r
  end.

Definition quotes_escaped (s : string) : bool := quotes_escaped_from false s.

(** The character [c] occurs in [s]. *)
Fixpoint occurs (c : ascii) (s : string) : bool :=
  match s with
  | EmptyString => false
  | String a r => Ascii.eqb a c || occurs c r
  end.

(** A request whose body cannot be read. *)
Definition unreadable (e : exn) : request :=
  Request [("Key", "Sample_Key")] (Raise e).

(** The image host answers 404. *)
Definition image_missing_env : env := {|
  request_limits := cpython_limits;
  thread_limits := cpython_limits;
  requests_get := λ _ _ _,
    Ret (HttpResponse 404 "" (Raise (Exn RequestsJSONDecodeError "Expecting value")));
  requests_post := requests_post happy_env;
  multipart_encoder := multipart_encoder happy_env;
  temp_names := temp_names happy_env;
  io_fault := io_fault happy_env;
  session_post := session_post happy_env
|}.

End Observe.
Export Observe.

(** * Properties *)

(** ** The decoder has fuel enough *)

Section DecoderFuel.

Local Open Scope nat_scope.
Local Abbreviation len := String.length.

Lemma skip_ws_length (s : string) : len (skip_ws s) ≤ len s.
Proof. induction s as [|c s IH]; simpl; [lia|]. destruct (is_ws c); simpl; lia. Qed.

Lemma eat_length (c : ascii) (s r : string) :
  eat c s = Some r → len s = S (len r).
Proof.
  destruct s as [|a s]; simpl; [done|].
  destruct (Ascii.eqb a c); [|done]. by intros [= ->].
Qed.

Lemma take_digits_length (s : string) : ∀ acc n v m r,
  take_digits acc n s = (v, m, r) → len r ≤ len s.
Proof.
  induction s as [|c s IH]; simpl; intros acc n v m r H.
  - by simplify_eq.
  - destruct (digit_of c).
    + apply IH in H. lia.
    + simplify_eq. simpl. lia.
Qed.

Lemma strip_prefix_length (p : string) : ∀ s r,
  strip_prefix p s = Some r → len s = len p + len r.
Proof.
  induction p as [|a p IH]; simpl; intros s r H.
  - by simplify_eq.
  - destruct s as [|b s]; [done|]. destruct (Ascii.eqb a b); [|done].
    apply IH in H. simpl. lia.
Qed.

Lemma match_int_length (s : string) (i k : Z) (r : string) :
  match_int s = Some (i, k, r) → len r < len s.
Proof.
  destruct s as [|c s]; simpl; [done|].
  destruct (digit_of c) as [d|]; [|done].
  destruct (d =? 0)%Z.
  - intros [= _ _ ->]. lia.
  - intros [= Ht]. apply take_digits_length in Ht. lia.
Qed.

Lemma match_frac_length (m : Z) (s : string) m' n r :
  match_frac m s = Some (m', n, r) → len r ≤ len s.
Proof.
  unfold match_frac. destruct (eat "." s) as [r0|] eqn:He; [|done].
  destruct (take_digits m 0 r0) as [[v k] r'] eqn:Ht.
  destruct (k =? 0)%Z; [done|]. intros [= _ _ ->].
  apply eat_length in He. apply take_digits_length in Ht. lia.
Qed.

Lemma match_exp_length (s : string) x r :
  match_exp s = Some (x, r) → len r ≤ len s.
Proof.
  destruct s as [|c s]; simpl; [done|].
  destruct (Ascii.eqb c "e" || Ascii.eqb c "E"); [|done].
  destruct (eat "-" s) as [r1|] eqn:Hm.
  - destruct (take_digits 0 0 r1) as [[v k] r'] eqn:Ht.
    destruct (k =? 0)%Z; [done|]. intros [= _ ->].
    apply eat_length in Hm. apply take_digits_length in Ht. lia.
  - destruct (eat "+" s) as [r1|] eqn:Hp.
    + destruct (take_digits 0 0 r1) as [[v k] r'] eqn:Ht.
      destruct (k =? 0)%Z; [done|]. intros [= _ ->].
      apply eat_length in Hp. apply take_digits_length in Ht. lia.
    + destruct (take_digits 0 0 s) as [[v k] r'] eqn:Ht.
      destruct (k =? 0)%Z; [done|]. intros [= _ ->].
      apply take_digits_length in Ht. lia.
Qed.

Lemma match_number_length (s : string) v k r :
  match_number s = Some (v, k, r) → len r < len s.
Proof.
  unfold match_number.
  assert (∀ neg s1, len s1 ≤ len s →
    match match_int s1 with
    | Some (i, k0, r0) =>
        let sgn (z : Z) := if neg : bool then (- z)%Z else z in
        match match_frac i r0 with
        | Some (m, n, r1) =>
            match match_exp r1 with
            | Some (x, r2) => Some (PFloat (FDec (sgn m) (x - n)), 0%Z, r2)
            | None => Some (PFloat (FDec (sgn m) (- n)), 0%Z, r1)
            end
        | None =>
            match match_exp r0 with
            | Some (x, r2) => Some (PFloat (FDec (sgn i) x), 0%Z, r2)
            | None => Some (PInt (sgn i), k0, r0)
            end
        end
    | None => None
    end = Some (v, k, r) → len r < len s) as Hcore.
  { intros neg s1 Hs1.
    destruct (match_int s1) as [[[i k0] r0]|] eqn:Hi; [|done].
    apply match_int_length in Hi. cbv zeta.
    destruct (match_frac i r0) as [[[m n] r1]|] eqn:Hf.
    - apply match_frac_length in Hf.
      destruct (match_exp r1) as [[x r2]|] eqn:Hx.
      + apply match_exp_length in Hx. intros [= _ _ ->]. lia.
      + intros [= _ _ ->]. lia.
    - destruct (match_exp r0) as [[x r2]|] eqn:Hx.
      + apply match_exp_length in Hx. intros [= _ _ ->]. lia.
      + intros [= _ _ ->]. lia. }
  destruct (eat "-" s) as [r0|] eqn:He.
  - apply eat_length in He. apply (Hcore true r0). lia.
  - apply (Hcore false s). lia.
Qed.

Lemma scan_atom_progress (L : limits) (s : string) :
  scan_atom L s ≠ PFuel ∧ ∀ v r, scan_atom L s = POk v r → len r < len s.
Proof.
  unfold scan_atom.
  repeat match goal with
         | |- context [strip_prefix ?p s] =>
             let H := fresh "Hp" in
             destruct (strip_prefix p s) eqn:H;
             [apply strip_prefix_length in H; simpl in H;
              split; [done|intros ? ? [= _ <-]; lia]|]
         | |- context [match_number s] =>
             let H := fresh "Hn" in
             destruct (match_number s) as [[[? ?] ?]|] eqn:H;
             [apply match_number_length in H;
              destruct (digits_exceeded _ _);
              (split; [done|intros ? ? [=]; subst; lia])|]
         end.
  split; [done|done].
Qed.

Lemma scanstring_progress (n : nat) : ∀ s acc,
  len s ≤ n →
  scanstring acc s ≠ PFuel ∧ ∀ t r, scanstring acc s = POk t r → len r < len s.
Proof.
  induction n as [|n IH]; intros s acc Hn.
  - destruct s; simpl in *; [split; done | lia].
  - destruct s as [|c r]; simpl in *; [split; done|].
    repeat case_match; subst; cbn [String.length] in *;
      try (split; [done | intros ? ? [=]; subst; lia]).
    all: match goal with
         | |- scanstring ?a ?r' ≠ _ ∧ _ =>
             destruct (IH r' a ltac:(cbn [String.length]; lia)) as [Hne Hlt];
             split; [done | intros t r0 Hok; apply Hlt in Hok;
                            cbn [String.length] in *; lia]
         end.
Qed.

(** With more fuel than twice the length of the text, the scanner does
    not run out of it, and a value it reads is not empty. *)
Lemma scan_fuel (L : limits) (fuel : nat) :
  (∀ s depth, 2 * len s < fuel →
     scan_once L fuel depth s ≠ PFuel ∧
     ∀ v r, scan_once L fuel depth s = POk v r → len r < len s) ∧
  (∀ s depth acc, 2 * len s + 1 < fuel →
     parse_elems L fuel depth s acc ≠ PFuel ∧
     ∀ v r, parse_elems L fuel depth s acc = POk v r → len r < len s) ∧
  (∀ s depth acc, 2 * len s + 1 < fuel →
     parse_members L fuel depth s acc ≠ PFuel ∧
     ∀ v r, parse_members L fuel depth s acc = POk v r → len r < len s).
Proof.
  induction fuel as [|fuel (IHs & IHe & IHm)]; [split_and!; intros; lia|].
  split_and!.
  - intros s depth Hf. destruct s as [|c r]; simpl; [split; done|].
    destruct (Ascii.eqb c dq).
    { destruct (scanstring_progress (len r) r "" ltac:(lia)) as [Hne Hlt].
      destruct (scanstring "" r) as [t r'| | |] eqn:Hs; [|done|done|done].
      split; [done|]. intros v r0 [= _ <-]. specialize (Hlt _ _ eq_refl).
      simpl. lia. }
    pose proof (skip_ws_length r) as Hws. simpl in Hf.
    destruct (Ascii.eqb c "{").
    { destruct (max_nesting L <=? depth); [done|].
      destruct (eat "}" (skip_ws r)) as [r'|] eqn:He.
      - apply eat_length in He. split; [done|]. intros v r0 [= _ <-].
        simpl. lia.
      - destruct (IHm (skip_ws r) (S depth) [] ltac:(lia)) as [Hne Hlt].
        split; [done|]. intros v r0 H. apply Hlt in H. simpl. lia. }
    destruct (Ascii.eqb c "[").
    { destruct (max_nesting L <=? depth); [done|].
      destruct (eat "]" (skip_ws r)) as [r'|] eqn:He.
      - apply eat_length in He. split; [done|]. intros v r0 [= _ <-].
        simpl. lia.
      - destruct (IHe (skip_ws r) (S depth) [] ltac:(lia)) as [Hne Hlt].
        split; [done|]. intros v r0 H. apply Hlt in H. simpl. lia. }
    apply (scan_atom_progress L (String c r)).
  - intros s depth acc Hf. simpl.
    destruct (IHs s depth ltac:(lia)) as [Hne Hlt].
    destruct (scan_once L fuel depth s) as [v r| | |] eqn:Hs;
      [|done|done|done].
    specialize (Hlt _ _ eq_refl). pose proof (skip_ws_length r) as Hws.
    destruct (eat "]" (skip_ws r)) as [r'|] eqn:He.
    { apply eat_length in He. split; [done|]. intros v0 r0 [= _ <-]. lia. }
    destruct (eat "," (skip_ws r)) as [r'|] eqn:Hc; [|done].
    apply eat_length in Hc. pose proof (skip_ws_length r') as Hws'.
    destruct (IHe (skip_ws r') depth (v :: acc) ltac:(lia)) as [Hne' Hlt'].
    split; [done|]. intros v0 r0 H. apply Hlt' in H. lia.
  - intros s depth acc Hf. simpl.
    destruct (eat dq s) as [r|] eqn:Hq; [|done]. apply eat_length in Hq.
    destruct (scanstring_progress (len r) r "" ltac:(lia)) as [Hne Hlt].
    destruct (scanstring "" r) as [k r1| | |] eqn:Hk; [|done|done|done].
    specialize (Hlt _ _ eq_refl). pose proof (skip_ws_length r1) as Hws1.
    destruct (eat ":" (skip_ws r1)) as [r2|] eqn:Hcol; [|done].
    apply eat_length in Hcol. pose proof (skip_ws_length r2) as Hws2.
    destruct (IHs (skip_ws r2) depth ltac:(lia)) as [Hne2 Hlt2].
    destruct (scan_once L fuel depth (skip_ws r2)) as [v r3| | |] eqn:Hv;
      [|done|done|done].
    specialize (Hlt2 _ _ eq_refl). pose proof (skip_ws_length r3) as Hws3.
    destruct (eat "}" (skip_ws r3)) as [r'|] eqn:He.
    { apply eat_length in He. split; [done|]. intros v0 r0 [= _ <-]. lia. }
    destruct (eat "," (skip_ws r3)) as [r'|] eqn:Hc; [|done].
    apply eat_length in Hc. pose proof (skip_ws_length r') as Hws'.
    destruct (IHm (skip_ws r') depth ((k, v) :: acc) ltac:(lia)) as [Hne' Hlt'].
    split; [done|]. intros v0 r0 H. apply Hlt' in H. lia.
Qed.

(** [json_loads] never gives up for lack of fuel: a [RecursionError] is
    the one of the interpreter's limit. *)
Lemma json_loads_fuel (L : limits) (s : string) :
  scan_once L (2 * len s + 1) 0 (skip_ws s) ≠ PFuel.
Proof.
  apply scan_fuel. pose proof (skip_ws_length s). lia.
Qed.

Lemma scan_atom_unlimited (L : limits) (N : nat) (s : string) :
  is_limit (scan_atom L s) = false →
  scan_atom (Limits N 0) s = scan_atom L s.
Proof.
  unfold scan_atom.
  repeat match goal with
         | |- context [strip_prefix ?p s] =>
             destruct (strip_prefix p s); [done|]
         | |- context [match_number s] =>
             destruct (match_number s) as [[[? k] ?]|];
             [unfold digits_exceeded at 2; simpl; rewrite andb_false_r;
              by destruct (digits_exceeded L k)|]
         end.
  done.
Qed.

(** A result that is not the report of a limit is the result of the
    scanner without limits. *)
Lemma scan_unlimited (L : limits) (N : nat) (fuel : nat) :
  (∀ s depth depth', 2 * len s < fuel → depth' + len s ≤ N →
     is_limit (scan_once L fuel depth s) = false →
     scan_once (Limits N 0) fuel depth' s = scan_once L fuel depth s) ∧
  (∀ s depth depth' acc, 2 * len s + 1 < fuel → depth' + len s ≤ N →
     is_limit (parse_elems L fuel depth s acc) = false →
     parse_elems (Limits N 0) fuel depth' s acc =
     parse_elems L fuel depth s acc) ∧
  (∀ s depth depth' acc, 2 * len s + 1 < fuel → depth' + len s ≤ N →
     is_limit (parse_members L fuel depth s acc) = false →
     parse_members (Limits N 0) fuel depth' s acc =
     parse_members L fuel depth s acc).
Proof.
  induction fuel as [|fuel (IHs & IHe & IHm)]; [split_and!; intros; lia|].
  destruct (scan_fuel L fuel) as (Hprog & _ & _).
  split_and!.
  - intros s depth depth' Hf HN. destruct s as [|c r]; [done|].
    cbn [scan_once]. simpl in Hf, HN.
    destruct (Ascii.eqb c dq); [done|].
    pose proof (skip_ws_length r) as Hws.
    destruct (Ascii.eqb c "{").
    { cbn [max_nesting].
      destruct (max_nesting L <=? depth); [done|].
      destruct (N <=? depth') eqn:HNd; [apply Nat.leb_le in HNd; lia|].
      destruct (eat "}" (skip_ws r)); [done|].
      apply IHm; lia. }
    destruct (Ascii.eqb c "[").
    { cbn [max_nesting].
      destruct (max_nesting L <=? depth); [done|].
      destruct (N <=? depth') eqn:HNd; [apply Nat.leb_le in HNd; lia|].
      destruct (eat "]" (skip_ws r)); [done|].
      apply IHe; lia. }
    apply scan_atom_unlimited.
  - intros s depth depth' acc Hf HN. cbn [parse_elems].
    pose proof (IHs s depth depth' ltac:(lia) ltac:(lia)) as Hsim.
    destruct (Hprog s depth ltac:(lia)) as [_ Hlt].
    destruct (scan_once L fuel depth s) as [v r|m|f|] eqn:Hs;
      try done; rewrite Hsim by done; try done.
    specialize (Hlt _ _ eq_refl). pose proof (skip_ws_length r) as Hws.
    destruct (eat "]" (skip_ws r)); [done|].
    destruct (eat "," (skip_ws r)) as [r'|] eqn:Hc; [|done].
    apply eat_length in Hc. pose proof (skip_ws_length r') as Hws'.
    apply IHe; lia.
  - intros s depth depth' acc Hf HN. cbn [parse_members].
    destruct (eat dq s) as [r|] eqn:Hq; [|done]. apply eat_length in Hq.
    destruct (scanstring_progress (len r) r "" ltac:(lia)) as [_ Hlt].
    destruct (scanstring "" r) as [k r1| | |] eqn:Hk; try done.
    specialize (Hlt _ _ eq_refl). pose proof (skip_ws_length r1) as Hws1.
    destruct (eat ":" (skip_ws r1)) as [r2|] eqn:Hcol; [|done].
    apply eat_length in Hcol. pose proof (skip_ws_length r2) as Hws2.
    pose proof (IHs (skip_ws r2) depth depth' ltac:(lia) ltac:(lia)) as Hsim.
    destruct (Hprog (skip_ws r2) depth ltac:(lia)) as [_ Hlt2].
    destruct (scan_once L fuel depth (skip_ws r2)) as [v r3|m|f|] eqn:Hv;
      try done; rewrite Hsim by done; try done.
    specialize (Hlt2 _ _ eq_refl). pose proof (skip_ws_length r3) as Hws3.
    destruct (eat "}" (skip_ws r3)); [done|].
    destruct (eat "," (skip_ws r3)) as [r'|] eqn:Hc; [|done].
    apply eat_length in Hc. pose proof (skip_ws_length r') as Hws'.
    apply IHm; lia.
Qed.

(** What [json.loads] decodes under some limits, it decodes to the same
    value without them, and the syntax error it reports is the one of
    the text: the limits only add failures. *)
Lemma json_loads_limits (L : limits) (s : string) :
  match json_loads L s with
  | inl v => json_loads (Limits (len s) 0) s = inl v
  | inr (DecodeError m) => json_loads (Limits (len s) 0) s = inr (DecodeError m)
  | inr (LimitReached _) => True
  end.
Proof.
  unfold json_loads.
  pose proof (skip_ws_length s) as Hws.
  destruct (scan_unlimited L (len s) (2 * len s + 1)) as (Hsim & _ & _).
  specialize (Hsim (skip_ws s) 0 0 ltac:(lia) ltac:(lia)).
  pose proof (json_loads_fuel L s) as Hfuel.
  destruct (scan_once L (2 * len s + 1) 0 (skip_ws s)) as [v r|m|f|] eqn:Hs.
  - rewrite Hsim by done. by destruct (skip_ws r).
  - by rewrite Hsim.
  - done.
  - done.
Qed.

Lemma json_loads_valid (L : limits) (s : string) (v : pyval) :
  json_loads L s = inl v → json_valid s = true.
Proof.
  intros H. pose proof (json_loads_limits L s) as Hl. rewrite H in Hl.
  unfold json_valid. by rewrite Hl.
Qed.

Lemma json_loads_invalid (L : limits) (s : string) (msg : string) :
  json_loads L s = inr (DecodeError msg) → json_valid s = false.
Proof.
  intros H. pose proof (json_loads_limits L s) as Hl. rewrite H in Hl.
  unfold json_valid. by rewrite Hl.
Qed.

(** A short integer literal is never refused. *)
Lemma digits_not_exceeded (L : limits) (n : Z) :
  (n ≤ 640)%Z → digits_exceeded L n = false.
Proof.
  intros Hn. unfold digits_exceeded.
  by replace (640 <? n)%Z with false by (symmetry; apply Z.ltb_ge; lia).
Qed.

End DecoderFuel.


(** ** Symbolic execution of the monad *)

(** Unfold the operations of the monad and of the world. *)
Ltac unfold_ops :=
  unfold NamedTemporaryFile, file_write, file_close, file_read, unlink,
    raise_for_status, fault, request_json;
  unfold mbind, mret, M_bind, M_ret, bind, ret, raise, emit, log, get_state,
    put_state, of_outcome, try_except, try_finally, with_local, lift,
    get_local, set_local, after.

(** Split on an innermost scrutinee: one that has no [match] inside. *)
Ltac split_scrutinee :=
  match goal with
  | |- context [match ?x with _ => _ end] =>
      lazymatch x with
      | context [match _ with _ => _ end] => fail
      | _ => destruct x eqn:?
      end
  end.

(** Follow every path of the computation in the goal. *)
Ltac run_paths :=
  unfold_ops;
  repeat first [progress cbn -[Z.leb Z.ltb String.eqb] | split_scrutinee].

(** Facts on the temporary directory along a path. *)
Lemma find_free_name (s : fs) (names : list string) (n : string) :
  List.find (λ n, bool_decide (s !! n = None)) names = Some n → s !! n = None.
Proof.
  intros H. apply List.find_some in H as [_ H].
  by apply bool_decide_eq_true in H.
Qed.

Ltac fs_solve :=
  repeat match goal with
    | H : List.find _ _ = Some _ |- _ => apply find_free_name in H
    end;
  simplify_map_eq;
  rewrite ?delete_insert_eq, ?insert_insert_eq;
  try (by rewrite delete_id);
  try done.

(** ** Checks along a trace *)

Section TraceChecks.

Variables P Q : event → bool.

Lemma guarded_sound (evs : list event) : ∀ seen,
  guarded P Q seen evs = true →
  ∀ pre e post, evs = (pre ++ e :: post)%list → Q e = true →
    seen = true ∨ ∃ e', e' ∈ pre ∧ P e' = true.
Proof.
  induction evs as [|x evs IH]; intros seen Hg pre e post Heq HQ.
  - by destruct pre.
  - simpl in Hg. apply andb_true_iff in Hg as [Hx Hrest].
    destruct pre as [|y pre]; simplify_eq/=.
    + rewrite HQ in Hx. by left.
    + destruct (IH _ Hrest pre e post eq_refl HQ) as [Hs|(e' & Hin & HP)].
      * apply orb_true_iff in Hs as [->|HP]; [by left|].
        right. exists y. split; [left|done].
      * right. exists e'. split; [by right|done].
Qed.

Lemma guarded_precedes (evs : list event) :
  guarded P Q false evs = true → precedes P Q evs.
Proof.
  intros Hg pre e post Heq HQ.
  by destruct (guarded_sound evs false Hg pre e post Heq HQ).
Qed.

Lemma guarded_app (l1 l2 : list event) : ∀ seen,
  guarded P Q seen (l1 ++ l2) =
  guarded P Q seen l1 && guarded P Q (seen || existsb P l1) l2.
Proof.
  induction l1 as [|x l1 IH]; intros seen; simpl.
  - by rewrite orb_false_r.
  - by rewrite IH, andb_assoc, orb_assoc.
Qed.

Lemma guarded_no_Q (l : list event) : ∀ seen,
  forallb (λ e, negb (Q e)) l = true → guarded P Q seen l = true.
Proof.
  induction l as [|x l IH]; intros seen H; simpl in *; [done|].
  apply andb_true_iff in H as [-> H]. by rewrite IH.
Qed.

End TraceChecks.

Lemma unlinked_sound (n : string) (evs : list event) :
  unlinked n evs = true → FileUnlink n ∈ evs.
Proof.
  induction evs as [|x evs IH]; simpl; [done|].
  intros Hu. destruct x; try (right; by auto).
  apply orb_true_iff in Hu as [Hu|Hu].
  - apply String.eqb_eq in Hu as ->. left.
  - right; auto.
Qed.

Lemma unlinked_app (n : string) (l1 l2 : list event) :
  unlinked n (l1 ++ l2) = unlinked n l1 || unlinked n l2.
Proof.
  induction l1 as [|x l1 IH]; simpl; [done|].
  destruct x; try done. by rewrite IH, orb_assoc.
Qed.

Lemma temp_files_removed_sound (evs : list event) :
  temp_files_removed evs = true →
  ∀ n pre post, evs = (pre ++ FileCreate n :: post)%list → FileUnlink n ∈ post.
Proof.
  induction evs as [|x evs IH]; intros H n pre post Heq.
  - by destruct pre.
  - destruct pre as [|y pre]; simplify_eq/=.
    + apply andb_true_iff in H as [H _]. by apply unlinked_sound.
    + apply (IH ltac:(destruct y; try done; by apply andb_true_iff in H as [_ H])
               n pre post eq_refl).
Qed.

Lemma temp_files_removed_app (l1 l2 : list event) :
  temp_files_removed l1 = true → temp_files_removed l2 = true →
  temp_files_removed (l1 ++ l2) = true.
Proof.
  induction l1 as [|x l1 IH]; intros H1 H2; simpl in *; [done|].
  destruct x; auto.
  apply andb_true_iff in H1 as [Hu H1].
  by rewrite unlinked_app, Hu, IH.
Qed.

Lemma forallb_weaken {A} (P Q : A → bool) (l : list A) :
  (∀ x, P x = true → Q x = true) → forallb P l = true → forallb Q l = true.
Proof.
  intros HPQ. induction l as [|x l IH]; simpl; [done|].
  rewrite !andb_true_iff. intros [Hx Hl]. split; [by apply HPQ | by apply IH].
Qed.

Lemma existsb_elem_of {A} (P : A → bool) (l : list A) (x : A) :
  x ∈ l → P x = true → existsb P l = true.
Proof.
  intros Hin HP. apply existsb_exists. exists x.
  by rewrite <- list_elem_of_In.
Qed.

Lemma forallb_elem_of {A} (P : A → bool) (l : list A) (x : A) :
  forallb P l = true → x ∈ l → P x = true.
Proof.
  intros Hall Hin. apply list_elem_of_In in Hin.
  by apply (proj1 (forallb_forall P l) Hall).
Qed.

(** The events a membership in a written-out trace can stand for. *)
Ltac event_cases Hin :=
  apply list_elem_of_In in Hin; simpl in Hin;
  repeat match type of Hin with
         | _ ∨ _ => destruct Hin as [Hin|Hin]; [try discriminate Hin|]
         | False => destruct Hin
         end.

(** Membership in a trace that is written out. *)
Ltac in_trace :=
  repeat (rewrite elem_of_app || rewrite elem_of_cons);
  repeat first [left; reflexivity | right].

Lemma status_ok_not_client (r : http_response) :
  status_ok r = true → (400 <=? status_code r) && (status_code r <? 500) = false.
Proof.
  unfold status_ok. rewrite negb_true_iff, !andb_false_iff.
  rewrite !Z.leb_gt, !Z.ltb_ge. lia.
Qed.

Lemma status_ok_not_server (r : http_response) :
  status_ok r = true → (500 <=? status_code r) && (status_code r <? 600) = false.
Proof.
  unfold status_ok. rewrite negb_true_iff, !andb_false_iff.
  rewrite !Z.leb_gt, !Z.ltb_ge. lia.
Qed.

Lemma status_ok_true (r : http_response) :
  (400 <=? status_code r) && (status_code r <? 500) = false →
  (500 <=? status_code r) && (status_code r <? 600) = false →
  status_ok r = true.
Proof.
  unfold status_ok. rewrite !andb_false_iff, negb_true_iff, andb_false_iff.
  rewrite !Z.leb_gt, !Z.ltb_ge. lia.
Qed.

(** ** The upload step *)

Section Upload.

Variable E : env.
Variables image_url alt description title username password : pyval.

Local Abbreviation up :=
  (upload_image_to_wordpress E image_url alt description title username
     password).

(** The upload leaves the temporary directory as it found it. *)
Lemma upload_restores_fs (s : fs) : state_after (up s) = s.
Proof.
  unfold upload_image_to_wordpress. run_paths; fs_solve.
Qed.

(** Whatever temporary file the upload creates, it unlinks. *)
Lemma upload_removes_temp_files (s : fs) :
  temp_files_removed (events (up s)) = true.
Proof.
  unfold upload_image_to_wordpress. run_paths;
    rewrite ?String.eqb_refl; fs_solve.
Qed.

(** The upload talks to the image host and to the media endpoint only. *)
Lemma upload_events (s : fs) : forallb upload_event (events (up s)) = true.
Proof.
  unfold upload_image_to_wordpress. run_paths; fs_solve.
Qed.

(** A truthy result is the [id] of the media endpoint's answer. *)
Lemma upload_returns_media_id (s : fs) (v : pyval) :
  result (up s) = Ret v → truthy v = true →
  ∃ data hdrs resp d,
    HttpPost media_url data hdrs ∈ events (up s) ∧
    requests_post E media_url data hdrs = Ret resp ∧
    status_ok resp = true ∧
    json resp = Ret (PDict d) ∧
    dict_lookup "id" d = Some v.
Proof.
  unfold upload_image_to_wordpress. run_paths;
    intros; simplify_eq/=; try done.
  all: match goal with
       | H : py_get ?x _ = Ret _ |- _ => destruct x; simplify_eq/=
       end.
  all: match goal with
       | H : truthy (dict_get ?d _) = true |- _ =>
           unfold dict_get in *; destruct (dict_lookup "id" d) eqn:?;
           simplify_eq/=
       end.
  all: do 4 eexists; split_and!; eauto using status_ok_true.
  all: set_solver.
Qed.

(** A temporary file is created under a name that was free. *)
Lemma upload_creates_fresh (s : fs) (n : string) :
  FileCreate n ∈ events (up s) → s !! n = None.
Proof.
  unfold upload_image_to_wordpress. run_paths; intros Hin; event_cases Hin.
  all: simplify_eq; by eapply find_free_name.
Qed.

(** Once the media endpoint has answered with a good status and a JSON
    object, the upload returns what the object holds under [id]. *)
Lemma upload_result_of_media_answer (s : fs) data hdrs resp d :
  HttpPost media_url data hdrs ∈ events (up s) →
  requests_post E media_url data hdrs = Ret resp →
  status_ok resp = true →
  json resp = Ret (PDict d) →
  result (up s) = Ret (dict_get d "id").
Proof.
  intros Hin Hresp Hok Hjson. revert Hin.
  pose proof (status_ok_not_client _ Hok) as Hc.
  pose proof (status_ok_not_server _ Hok) as Hs.
  unfold upload_image_to_wordpress. run_paths; intros Hin; event_cases Hin.
  all: simplify_eq; try congruence.
  all: match goal with
       | H1 : requests_post _ _ _ _ = Ret ?a, H2 : requests_post _ _ _ _ = Ret ?b
         |- _ => assert (a = b) as -> by congruence
       end.
  all: rewrite Hjson in *; by simplify_eq/=.
Qed.

End Upload.

(** ** Post creation *)

Section CreatePost.

Variable E : env.
Variables title author content status categories thumbnail_url alt
  description username password daprun_id : pyval.

Local Abbreviation up :=
  (upload_image_to_wordpress E thumbnail_url alt description title username
     password).

Local Abbreviation cp :=
  (create_post_in_wordpress E title author content status categories
     thumbnail_url alt description username password daprun_id).

(** Name the run [r] of the function and the run of the upload step in
    it; [cp_paths] then follows the rest of the function. *)
Ltac cp_start s r uo uevs Hup :=
  remember (cp s) as r eqn:Hr; revert Hr;
  unfold create_post_in_wordpress, notify_successful_post; unfold_ops;
  let us := fresh "us" in
  destruct (up s) as [uo us uevs] eqn:Hup.

Ltac cp_paths :=
  run_paths; intros ->;
  rewrite <- ?app_assoc, ?app_nil_r; cbn -[guarded temp_files_removed forallb].

(** What the upload step tells the rest of the function. *)
Lemma upload_summary (s : fs) (o : outcome pyval) (s1 : fs) (evs : list event) :
  up s = Run o s1 evs →
  s1 = s ∧
  temp_files_removed evs = true ∧
  forallb upload_event evs = true ∧
  (∀ v, o = Ret v → truthy v = true → existsb is_media_upload evs = true).
Proof.
  intros Hup.
  pose proof (upload_restores_fs E thumbnail_url alt description title
                username password s) as Hfs.
  pose proof (upload_removes_temp_files E thumbnail_url alt description title
                username password s) as Htmp.
  pose proof (upload_events E thumbnail_url alt description title
                username password s) as Hev.
  pose proof (upload_returns_media_id E thumbnail_url alt description title
                username password s) as Hid.
  rewrite Hup in Hfs, Htmp, Hev, Hid. simpl in *. split_and!; try done.
  intros v -> Hv. destruct (Hid v eq_refl Hv) as (data & hdrs & _ & _ & Hin & _).
  by apply (existsb_elem_of _ _ _ Hin).
Qed.

Lemma upload_event_quiet (e : event) :
  upload_event e = true →
  is_post_creation e = false ∧ is_notification e = false ∧
  is_thread_start e = false.
Proof.
  unfold upload_event. rewrite !andb_true_iff, !negb_true_iff. tauto.
Qed.

(** What holds on every path of the post creation: the temporary
    directory is restored, temporary files are unlinked, no thread is
    started, and the upstream calls come in the order media upload,
    post, notification. *)
Lemma create_post_invariants (s : fs) :
  state_after (cp s) = s ∧
  temp_files_removed (events (cp s)) = true ∧
  forallb (λ e, negb (is_thread_start e)) (events (cp s)) = true ∧
  guarded is_media_upload is_post_creation false (events (cp s)) = true ∧
  guarded is_post_creation is_notification false (events (cp s)) = true.
Proof.
  cp_start s r uo uevs Hup.
  apply upload_summary in Hup as (-> & Htmp & Hev & Hmedia).
  assert (forallb (λ e, negb (is_thread_start e)) uevs = true) as Hth.
  { revert Hev. apply forallb_weaken. intros e He.
    apply upload_event_quiet in He as (_ & _ & ->). done. }
  assert (∀ seen, guarded is_media_upload is_post_creation seen uevs = true)
    as Hg1.
  { intros seen. apply guarded_no_Q. revert Hev. apply forallb_weaken.
    intros e He. apply upload_event_quiet in He as (-> & _ & _). done. }
  assert (∀ seen, guarded is_post_creation is_notification seen uevs = true)
    as Hg2.
  { intros seen. apply guarded_no_Q. revert Hev. apply forallb_weaken.
    intros e He. apply upload_event_quiet in He as (_ & -> & _). done. }
  cp_paths.
  all: rewrite ?forallb_app, ?guarded_app, ?Hth, ?Hg1, ?Hg2.
  all: rewrite ?temp_files_removed_app by done.
  all: try rewrite (Hmedia _ eq_refl) by done.
  all: cbn; rewrite ?orb_true_r; done.
Qed.

(** There is no event of the kind asked for: the events of the upload
    are quiet ([Hev]), the others are looked at one by one. *)
Ltac no_such_event Hev :=
  let e := fresh "e" in
  let Hin := fresh "Hin" in
  let He := fresh "He" in
  intros (e & Hin & He);
  rewrite ?elem_of_app, ?elem_of_cons, ?elem_of_nil in Hin;
  destruct_or? Hin; try done; try (subst e; discriminate He);
  apply (forallb_elem_of _ _ _ Hev) in Hin;
  apply upload_event_quiet in Hin as (? & ? & ?); congruence.

(** What the calls of the posts endpoint and of the notifier depend on,
    in a run of the post creation. *)
Lemma create_post_ordering (s : fs) :
  ((∃ e, e ∈ events (cp s) ∧ is_post_creation e = true) →
     ∃ id, result (up s) = Ret id ∧ truthy id = true) ∧
  ((∃ e, e ∈ events (cp s) ∧ is_notification e = true) →
     ∃ data hdrs resp rd pid,
       HttpPost posts_url data hdrs ∈ events (cp s) ∧
       requests_post E posts_url data hdrs = Ret resp ∧
       status_ok resp = true ∧
       json resp = Ret rd ∧
       py_getitem rd "id" = Ret pid) ∧
  precedes is_media_upload is_post_creation (events (cp s)) ∧
  precedes is_post_creation is_notification (events (cp s)) ∧
  (result (up s) = Ret PNone →
     forallb (λ e, negb (is_post_creation e) && negb (is_notification e))
       (events (cp s)) = true).
Proof.
  split_and!.
  - cp_start s r uo uevs Hup.
    apply upload_summary in Hup as (-> & _ & Hev & _).
    cp_paths;
      first [by no_such_event Hev
            | intros _; eexists; split; [reflexivity|assumption]].
  - cp_start s r uo uevs Hup.
    apply upload_summary in Hup as (-> & _ & Hev & _).
    cp_paths;
      first [by no_such_event Hev
            | intros _; do 5 eexists; split_and!;
              [in_trace | eassumption | by apply status_ok_true
              | eassumption | eassumption]].
  - apply guarded_precedes, create_post_invariants.
  - apply guarded_precedes, create_post_invariants.
  - cp_start s r uo uevs Hup.
    apply upload_summary in Hup as (-> & _ & Hev & _).
    assert (forallb (λ e, negb (is_post_creation e) && negb (is_notification e))
              uevs = true) as Hq.
    { revert Hev. apply forallb_weaken. intros e He.
      apply upload_event_quiet in He as (-> & -> & _). done. }
    cp_paths; intros; simplify_eq/=; rewrite ?forallb_app, ?Hq; done.
Qed.

(** When the posts endpoint has answered the request with a good status
    and a JSON body that has an [id], the notifier is called with that
    id and with [daprun_id]. *)
Lemma create_post_notifies (s : fs) data hdrs resp rd pid :
  HttpPost posts_url data hdrs ∈ events (cp s) →
  requests_post E posts_url data hdrs = Ret resp →
  status_ok resp = true →
  json resp = Ret rd →
  py_getitem rd "id" = Ret pid →
  SessionPost notify_url (notification pid daprun_id) notify_headers
    ∈ events (cp s).
Proof.
  intros Hin Hresp Hok Hjson Hid. revert Hin.
  pose proof (status_ok_not_client _ Hok) as Hc.
  pose proof (status_ok_not_server _ Hok) as Hs.
  cp_start s r uo uevs Hup.
  apply upload_summary in Hup as (-> & _ & Hev & _).
  cp_paths; intros Hin.
  all: rewrite ?elem_of_app in Hin; destruct_or? Hin.
  all: try (apply (forallb_elem_of _ _ _ Hev) in Hin;
            apply upload_event_quiet in Hin as (Hp & _); by vm_compute in Hp).
  all: event_cases Hin; simplify_eq; try congruence.
  all: match goal with
       | H1 : requests_post _ _ _ _ = Ret ?a, H2 : requests_post _ _ _ _ = Ret ?b
         |- _ => assert (a = b) as -> by congruence
       end.
  all: try congruence.
  all: match goal with
       | H1 : json ?a = Ret ?x, H2 : json ?a = Ret ?y |- _ =>
           assert (x = y) as -> by congruence
       end.
  all: try congruence.
  all: match goal with
       | H1 : py_getitem ?a _ = Ret ?x, H2 : py_getitem ?a _ = Ret ?y |- _ =>
           assert (x = y) as -> by congruence
       end.
  all: unfold notification, notify_headers; in_trace.
Qed.

(** C9.  The media upload succeeds (the request was sent, the answer
    passed the status check and is a JSON object) but the object has no
    [id], or has the id 0: the upload step returns a falsy value, the
    post creation logs the upload failure and returns [None], and neither
    the posts endpoint nor the notifier is called. *)
Theorem C9_media_id_missing_or_zero (s : fs) data hdrs resp d :
  HttpPost media_url data hdrs ∈ events (up s) →
  requests_post E media_url data hdrs = Ret resp →
  status_ok resp = true →
  json resp = Ret (PDict d) →
  dict_lookup "id" d = None ∨ dict_lookup "id" d = Some (PInt 0) →
  (∃ v, result (up s) = Ret v ∧ truthy v = false) ∧
  result (cp s) = Ret PNone ∧
  Log ERROR "Failed to upload image, cannot create post" [] ∈ events (cp s) ∧
  forallb (λ e, negb (is_post_creation e) && negb (is_notification e))
    (events (cp s)) = true.
Proof.
  intros Hin Hresp Hok Hjson Hid.
  pose proof (upload_result_of_media_answer E _ _ _ _ _ _ s _ _ _ _
                Hin Hresp Hok Hjson) as Hres.
  assert (truthy (dict_get d "id") = false) as Hfalsy.
  { unfold dict_get. by destruct Hid as [-> | ->]. }
  split; [eauto|]. clear Hin Hresp Hok Hjson Hid.
  cp_start s r uo uevs Hup.
  apply upload_summary in Hup as (-> & _ & Hev & _).
  assert (forallb (λ e, negb (is_post_creation e) && negb (is_notification e))
            uevs = true) as Hq.
  { revert Hev. apply forallb_weaken. intros e He.
    apply upload_event_quiet in He as (-> & -> & _). done. }
  simpl in Hres. subst uo. rewrite Hfalsy.
  cp_paths. rewrite forallb_app, Hq. split_and!; [done | in_trace | done].
Qed.

End CreatePost.

(** A run in which the media endpoint answers with the id 0. *)
Lemma C9_witness :
  let E := env_with_media_id (PInt 0) in
  let cp :=
    create_post_in_wordpress E (PStr "T") (PStr "7") (PStr "Hello")
      (PStr "publish") (int_list [1; 2]) (PStr "https://img.example/a.jpg")
      (PStr "alt") (PStr "desc") (PStr "editor") (PStr "secret")
      (PStr "run-B") ∅ in
  result cp = Ret PNone ∧
  Log ERROR "Failed to upload image, cannot create post" [] ∈ events cp ∧
  forallb (λ e, negb (is_post_creation e) && negb (is_notification e))
    (events cp) = true.
Proof.
  refine (proj2 (C9_media_id_missing_or_zero (env_with_media_id (PInt 0))
           (PStr "T") (PStr "7") (PStr "Hello")
           (PStr "publish") (int_list [1; 2]) (PStr "https://img.example/a.jpg")
           (PStr "alt") (PStr "desc") (PStr "editor") (PStr "secret")
           (PStr "run-B") ∅
           (DataMultipart
              (MultipartFields "T.jpg" "JFIF" "image/jpg" (PStr "alt")
                 (PStr "T") (PStr "desc")))
           [("Content-Type", Plain "multipart/form-data; boundary=b");
            ("Authorization", Basic "editor" "secret")]
           (HttpResponse 201 "" (Ret (PDict [("id", PInt 0)])))
           [("id", PInt 0)] _ _ _ _ _)).
  - apply list_elem_of_In. vm_compute. tauto.
  - reflexivity.
  - reflexivity.
  - reflexivity.
  - right. reflexivity.
Defined.

(** ** The pipeline *)

Section Pipeline.

Variable E : env.

Local Abbreviation pipeline := (process_media_and_post_async E).

(** Name the run [r] of the pipeline and follow its paths; the run of
    [create_post_in_wordpress] is left as one step. *)
Ltac pipeline_paths s r :=
  remember (pipeline _ s) as r eqn:Hr; revert Hr;
  unfold process_media_and_post_async, py_json_loads, py_get;
  run_paths; intros ->;
  rewrite <- ?app_assoc, ?app_nil_r; cbn -[guarded temp_files_removed forallb].

(** The invariants of the post creation, for the run found on a path. *)
Ltac use_create_post_invariants :=
  match goal with
  | Heq : create_post_in_wordpress ?E ?a ?b ?c ?d ?e ?f ?g ?h ?i ?j ?k ?s = _
    |- _ =>
      let H := fresh "Hinv" in
      pose proof (create_post_invariants E a b c d e f g h i j k s) as H;
      rewrite Heq in H; simpl in H
  end.

Lemma pipeline_invariants (req_data : pyval) (s : fs) :
  state_after (pipeline req_data s) = s ∧
  temp_files_removed (events (pipeline req_data s)) = true ∧
  forallb (λ e, negb (is_thread_start e)) (events (pipeline req_data s)) = true ∧
  guarded is_media_upload is_post_creation false
    (events (pipeline req_data s)) = true ∧
  guarded is_post_creation is_notification false
    (events (pipeline req_data s)) = true.
Proof.
  pipeline_paths s r; try done.
  all: use_create_post_invariants; cbn; tauto.
Qed.

(** The ways through the categories step.  A string goes to the
    decoder: its value takes the place of the string, a syntax error is
    logged and ends the run, and the exception of a limit of the
    interpreter is not handled: it leaves the pipeline. *)
Lemma pipeline_of_string (d : list (string * pyval)) (str : string) (s : fs) :
  dict_get d "categories" = PStr str →
  pipeline (PDict d) s =
  match json_loads (thread_limits E) str with
  | inl v => check_and_create E d v s
  | inr (DecodeError msg) =>
      Run (Ret tt) s [Log ERROR "Error processing categories: %s" [PStr msg]]
  | inr (LimitReached l) =>
      Run (Raise (exn_of_failure (thread_limits E) (LimitReached l))) s []
  end.
Proof.
  intros Hc.
  unfold process_media_and_post_async, check_and_create, required_present,
    py_json_loads, py_get.
  unfold_ops. cbn -[truthy]. rewrite Hc. cbn -[truthy].
  destruct (json_loads (thread_limits E) str) as [v|[msg|[b|k]]];
    cbn -[truthy]; try done.
  repeat (split_scrutinee; cbn -[truthy]; try done).
Qed.

Lemma pipeline_of_list (d : list (string * pyval)) (l : list pyval) (s : fs) :
  dict_get d "categories" = PList l →
  pipeline (PDict d) s = check_and_create E d (PList l) s.
Proof.
  intros Hc.
  unfold process_media_and_post_async, check_and_create, required_present,
    py_json_loads, py_get.
  unfold_ops. cbn -[truthy]. rewrite Hc. cbn -[truthy].
  repeat (split_scrutinee; cbn -[truthy]; try done).
Qed.

Lemma pipeline_of_other (d : list (string * pyval)) (s : fs) :
  categories_accepted (thread_limits E) (dict_get d "categories") = false →
  (∀ str, dict_get d "categories" ≠ PStr str) →
  pipeline (PDict d) s =
  Run (Ret tt) s
    [Log ERROR
       "Categories should be a list or a JSON-encoded string representing a list"
       []].
Proof.
  intros Hc Hs.
  unfold process_media_and_post_async, py_json_loads, py_get.
  unfold_ops. cbn -[truthy].
  destruct (dict_get d "categories"); try done. by destruct (Hs s0).
Qed.

(** C5 (amended).  When the posts endpoint has answered the request of
    the pipeline with a good status and a JSON body that has an [id],
    the notifier is called with exactly that id and with the value of
    the request's [daprun_id] field, in a body of the three keys
    [post_id], [status] and [daprun_id]; this holds whatever the webhook
    answers. *)
Theorem C5_notifier_arguments (d : list (string * pyval)) (s : fs)
    data hdrs resp rd pid :
  HttpPost posts_url data hdrs ∈ events (pipeline (PDict d) s) →
  requests_post E posts_url data hdrs = Ret resp →
  status_ok resp = true →
  json resp = Ret rd →
  py_getitem rd "id" = Ret pid →
  SessionPost notify_url
    (PDict [("post_id", pid); ("status", PStr "successful");
            ("daprun_id", dict_get d "daprun_id")])
    [("Content-Type", Plain "application/json");
     ("Authorization", Bearer "e498c614d60653c4dca590e36af58bb4")]
    ∈ events (pipeline (PDict d) s).
Proof.
  intros Hin Hresp Hok Hjson Hid. revert Hin.
  pipeline_paths s r; intros Hin; try (by event_cases Hin).
  all: apply elem_of_cons in Hin as [Hin|Hin]; [done|];
    apply elem_of_cons; right.
  all: match goal with
       | Heq : create_post_in_wordpress ?E ?a ?b ?c ?d ?e ?f ?g ?h ?i ?j ?k ?s
               = _ |- _ =>
           pose proof (create_post_notifies E a b c d e f g h i j k s
                         data hdrs resp rd pid) as Hn;
           rewrite Heq in Hn; by apply Hn
       end.
Qed.

End Pipeline.

(** C1.  Pipeline ordering invariant.  In every pipeline run a call of
    the posts endpoint comes after a media upload and a notification
    after a call of the posts endpoint.  In the post creation that the
    pipeline runs: the posts endpoint is called only if the upload step
    returned a truthy media identifier; the notification is sent only if
    the posts endpoint was called, its answer passed the status check
    and its JSON body has an [id]; and when the upload step returns
    [None], neither the posts endpoint nor the notifier is called. *)
Theorem C1_pipeline_ordering (E : env) (s : fs) :
  (∀ req_data,
     precedes is_media_upload is_post_creation
       (events (process_media_and_post_async E req_data s)) ∧
     precedes is_post_creation is_notification
       (events (process_media_and_post_async E req_data s))) ∧
  (∀ title author content status categories thumbnail_url alt description
     username password daprun_id,
     let up :=
       upload_image_to_wordpress E thumbnail_url alt description title
         username password s in
     let cp :=
       create_post_in_wordpress E title author content status categories
         thumbnail_url alt description username password daprun_id s in
     ((∃ e, e ∈ events cp ∧ is_post_creation e = true) →
        ∃ id, result up = Ret id ∧ truthy id = true) ∧
     ((∃ e, e ∈ events cp ∧ is_notification e = true) →
        ∃ data hdrs resp rd pid,
          HttpPost posts_url data hdrs ∈ events cp ∧
          requests_post E posts_url data hdrs = Ret resp ∧
          status_ok resp = true ∧
          json resp = Ret rd ∧
          py_getitem rd "id" = Ret pid) ∧
     (result up = Ret PNone →
        forallb (λ e, negb (is_post_creation e) && negb (is_notification e))
          (events cp) = true)).
Proof.
  split.
  - intros req_data. split; apply guarded_precedes, pipeline_invariants.
  - intros title author content status categories thumbnail_url alt
      description username password daprun_id up cp.
    destruct (create_post_ordering E title author content status categories
                thumbnail_url alt description username password daprun_id s)
      as (H1 & H2 & _ & _ & H5).
    by split_and!.
Qed.

(** C7.  Transient-file cleanup.  The fetch-and-upload operation leaves
    the temporary directory as it found it on every exit path, whatever
    the collaborators do: a temporary file it creates gets a name that
    was free, is unlinked later in the same run, and is absent when the
    operation returns; hence a pipeline run leaves no temporary file. *)
Theorem C7_temp_file_cleanup (E : env)
    (image_url alt description title username password : pyval) (s : fs) :
  let r :=
    upload_image_to_wordpress E image_url alt description title username
      password s in
  state_after r = s ∧
  (∀ n pre post, events r = (pre ++ FileCreate n :: post)%list →
     FileUnlink n ∈ post ∧ state_after r !! n = None) ∧
  (∀ req_data, state_after (process_media_and_post_async E req_data s) = s).
Proof.
  intros r. split_and!.
  - apply upload_restores_fs.
  - intros n pre post Heq. split.
    + eapply temp_files_removed_sound; [|done].
      apply upload_removes_temp_files.
    + subst r. rewrite upload_restores_fs.
      apply (upload_creates_fresh E image_url alt description title username
               password). rewrite Heq. in_trace.
  - intros req_data. apply pipeline_invariants.
Qed.

(** A run in which the post is created and the webhook is down: the
    notifier is called all the same. *)
Lemma C5_witness :
  SessionPost notify_url
    (PDict [("post_id", PInt 1234); ("status", PStr "successful");
            ("daprun_id", PStr "run-B")])
    [("Content-Type", Plain "application/json");
     ("Authorization", Bearer "e498c614d60653c4dca590e36af58bb4")]
    ∈ events (process_media_and_post_async webhook_down_env
                (PDict (fields (PStr "T") (int_list [1; 2]))) ∅).
Proof.
  refine (C5_notifier_arguments webhook_down_env
            (fields (PStr "T") (int_list [1; 2])) ∅
            (DataText
               (PostPayload (PStr "T") (PStr "7") "Hello" (PStr "publish")
                  (int_list [1; 2]) (PInt 77)))
            [("Content-Type", Plain "application/json");
             ("Authorization", Basic "editor" "secret")]
            (HttpResponse 201 "" (Ret (PDict [("id", PInt 1234)])))
            (PDict [("id", PInt 1234)]) (PInt 1234) _ _ _ _ _).
  - apply list_elem_of_In. vm_compute. tauto.
  - reflexivity.
  - reflexivity.
  - reflexivity.
  - reflexivity.
Defined.

(** C5 as stated fails: for a request that carries both a [run_id] and a
    [daprun_id], the post is created and the one notification sent holds
    the value of [daprun_id] under the key [daprun_id]; the value of
    [run_id] and a key [run_id] do not occur in it. *)
Lemma C5_counterexample :
  let d := (fields (PStr "T") (int_list [1; 2]) ++ [("run_id", PStr "run-A")])%list in
  let r := process_media_and_post_async happy_env (PDict d) ∅ in
  dict_get d "run_id" = PStr "run-A" ∧
  existsb is_post_creation (events r) = true ∧
  List.filter is_notification (events r) =
    [SessionPost notify_url
       (PDict [("post_id", PInt 1234); ("status", PStr "successful");
               ("daprun_id", PStr "run-B")])
       notify_headers] ∧
  SessionPost notify_url
    (PDict [("post_id", PInt 1234); ("status", PStr "successful");
            ("run_id", PStr "run-A")])
    notify_headers ∉ events r.
Proof.
  cbv zeta. split_and!; [reflexivity | reflexivity | reflexivity |].
  intros Hin. apply list_elem_of_In in Hin. vm_compute in Hin.
  repeat (destruct Hin as [Hin|Hin]; [discriminate Hin|]). destruct Hin.
Qed.

(** The two strings of the examples, under any limits. *)
Lemma json_loads_list_123 (L : limits) :
  (1 ≤ max_nesting L)%nat →
  json_loads L "[1,2,3]" = inl (PList [PInt 1; PInt 2; PInt 3]).
Proof.
  destruct L as [[|n] k]; simpl; [lia|]. intros _. reflexivity.
Qed.

Lemma json_loads_not_json (L : limits) :
  json_loads L "not-json" = inr (DecodeError "Expecting value").
Proof. reflexivity. Qed.




(** C8 (amended).  A categories string that the decoder decodes is not
    rejected at the decode step, list or not: the decoded value goes to
    the presence test in place of the string.  It is passed to the post
    creation when it and the other required fields are truthy; when the
    decoded value is falsy the run is the log of the missing parameters
    and nothing else. *)
Theorem C8_decoded_value_is_used (E : env) (d : list (string * pyval))
    (str : string) (v : pyval) (s : fs) :
  dict_get d "categories" = PStr str →
  json_loads (thread_limits E) str = inl v →
  process_media_and_post_async E (PDict d) s = check_and_create E d v s ∧
  (required_present d v = true →
     process_media_and_post_async E (PDict d) s =
     (log INFO "All required parameters are present" [];;
      create_post_in_wordpress E (dict_get d "title") (dict_get d "author")
        (dict_get d "content") (dict_get d "status") v
        (dict_get d "thumbnail_url") (dict_get d "alt_text")
        (dict_get d "description") (dict_get d "username")
        (dict_get d "password") (dict_get d "daprun_id");;
      mret tt) s) ∧
  (truthy v = false →
     process_media_and_post_async E (PDict d) s =
     Run (Ret tt) s [Log ERROR "Missing required parameters" []]).
Proof.
  intros Hc Hv.
  rewrite (pipeline_of_string E d _ s Hc), Hv. split_and!; [done| |].
  - intros Hp. unfold check_and_create. by rewrite Hp.
  - intros Hf. unfold check_and_create, required_present.
    by rewrite Hf, !andb_false_r.
Qed.

Lemma C8_witness :
  let d := fields (PStr "T") (PStr "5") in
  process_media_and_post_async happy_env (PDict d) ∅ =
  check_and_create happy_env d (PInt 5) ∅.
Proof.
  apply (C8_decoded_value_is_used happy_env (fields (PStr "T") (PStr "5"))
           "5" (PInt 5) ∅); reflexivity.
Defined.

(** C8 as stated fails: [null] is valid JSON and not a list, all other
    fields are in order, and the decoded value is not passed to the post
    creation; the run is the log of the missing parameters. *)
Lemma C8_counterexample :
  let d := fields (PStr "T") (PStr "null") in
  json_loads (thread_limits happy_env) "null" = inl PNone ∧
  json_valid "null" = true ∧
  required_present d (PInt 5) = true ∧
  process_media_and_post_async happy_env (PDict d) ∅ =
  Run (Ret tt) ∅ [Log ERROR "Missing required parameters" []].
Proof. cbv zeta. split_and!; reflexivity. Qed.

(** ** Falsy required fields *)

Lemma text_field_not_categories (k : string) :
  k ∈ text_fields → k ≠ "categories".
Proof.
  intros Hin ->. apply list_elem_of_In in Hin. vm_compute in Hin.
  repeat (destruct Hin as [Hin|Hin]; [discriminate Hin|]). destruct Hin.
Qed.

(** A falsy text field fails the presence test, whatever the rest. *)
Lemma required_present_falsy (d : list (string * pyval)) (k : string)
    (c : pyval) :
  k ∈ text_fields → truthy (dict_get d k) = false →
  required_present d c = false.
Proof.
  intros Hin Hk. unfold required_present.
  apply list_elem_of_In in Hin. simpl in Hin.
  repeat (destruct Hin as [<-|Hin];
          [by rewrite Hk, ?andb_false_r, ?andb_false_l|]).
  destruct Hin.
Qed.

Lemma check_and_create_missing (E : env) (d : list (string * pyval))
    (c : pyval) (s : fs) :
  required_present d c = false →
  check_and_create E d c s =
  Run (Ret tt) s [Log ERROR "Missing required parameters" []].
Proof. intros H. unfold check_and_create. by rewrite H. Qed.

(** C10 (amended).  A required text field that is present but is the
    empty string is treated as a missing one: the run is the run of the
    same request without the field, it leaves the state as it is, and
    it makes no upstream call and starts no post creation; when the
    categories value passes the normalisation step (a list, or a string
    that the decoder decodes) the run is the log of the missing
    parameters and nothing else; and the run returns, unless the
    categories string made the decoder meet a limit of the interpreter.
    An empty categories list always gives the log of the missing
    parameters and nothing else. *)
Theorem C10_falsy_required_field (E : env) (d : list (string * pyval))
    (s : fs) :
  (∀ k, k ∈ text_fields → dict_get d k = PStr "" →
     (∀ d', dict_get d' k = PNone →
            (∀ k', k' ≠ k → dict_get d' k' = dict_get d k') →
            process_media_and_post_async E (PDict d') s =
            process_media_and_post_async E (PDict d) s) ∧
     state_after (process_media_and_post_async E (PDict d) s) = s ∧
     forallb (λ e, negb (is_upstream e))
       (events (process_media_and_post_async E (PDict d) s)) = true ∧
     (categories_accepted (thread_limits E) (dict_get d "categories") = true →
        process_media_and_post_async E (PDict d) s =
        Run (Ret tt) s [Log ERROR "Missing required parameters" []]) ∧
     (result (process_media_and_post_async E (PDict d) s) = Ret tt ∨
      ∃ str l, dict_get d "categories" = PStr str ∧
               json_loads (thread_limits E) str = inr (LimitReached l))) ∧
  (dict_get d "categories" = PList [] →
     process_media_and_post_async E (PDict d) s =
     Run (Ret tt) s [Log ERROR "Missing required parameters" []]).
Proof.
  split.
  - intros k Hk Hempty.
    assert (∀ c, required_present d c = false) as Hreq.
    { intros c. apply (required_present_falsy d k c Hk). by rewrite Hempty. }
    assert (∀ d', dict_get d' k = PNone →
                  (∀ k', k' ≠ k → dict_get d' k' = dict_get d k') →
                  process_media_and_post_async E (PDict d') s =
                  process_media_and_post_async E (PDict d) s) as Hsame.
    { intros d' Hnone Hrest.
      assert (∀ c, required_present d' c = false) as Hreq'.
      { intros c. apply (required_present_falsy d' k c Hk). by rewrite Hnone. }
      assert (dict_get d' "categories" = dict_get d "categories") as Hcat.
      { apply Hrest. intros Heq. by apply (text_field_not_categories k). }
      destruct (dict_get d "categories") as [| | | |str|l|] eqn:Hc.
      all: try (rewrite !pipeline_of_other; rewrite ?Hcat, ?Hc; done).
      - rewrite (pipeline_of_string E d str s Hc).
        rewrite (pipeline_of_string E d' str s Hcat).
        destruct (json_loads (thread_limits E) str); [|done].
        by rewrite !check_and_create_missing.
      - rewrite (pipeline_of_list E d l s Hc).
        rewrite (pipeline_of_list E d' l s Hcat).
        by rewrite !check_and_create_missing. }
    split; [exact Hsame|].
    destruct (dict_get d "categories") as [| | | |str|l|] eqn:Hc.
    all: try (rewrite pipeline_of_other; rewrite ?Hc; [|done|done];
              split_and!; [done|done|done|by left]).
    + rewrite (pipeline_of_string E d str s Hc). simpl.
      destruct (json_loads (thread_limits E) str) as [v|[msg|l]] eqn:Hj.
      * rewrite check_and_create_missing by done.
        split_and!; [done|done|done|by left].
      * split_and!; [done|done|done|by left].
      * split_and!; [done|done|done|]. right. by exists str, l.
    + rewrite (pipeline_of_list E d l s Hc).
      rewrite check_and_create_missing by done.
      split_and!; [done|done|done|by left].
  - intros Hc. rewrite (pipeline_of_list E d [] s Hc).
    apply check_and_create_missing. unfold required_present. simpl.
    by rewrite !andb_false_r.
Qed.

Lemma C10_witness :
  let d := fields (PStr "") (PList [PInt 1]) in
  process_media_and_post_async happy_env (PDict d) ∅ =
  Run (Ret tt) ∅ [Log ERROR "Missing required parameters" []] ∧
  process_media_and_post_async happy_env
    (PDict (fields (PStr "T") (PList []))) ∅ =
  Run (Ret tt) ∅ [Log ERROR "Missing required parameters" []].
Proof.
  split.
  - apply (proj1 (C10_falsy_required_field happy_env
                    (fields (PStr "") (PList [PInt 1])) ∅) "title").
    + apply list_elem_of_In. vm_compute. tauto.
    + reflexivity.
    + reflexivity.
  - apply (proj2 (C10_falsy_required_field happy_env
                    (fields (PStr "T") (PList [])) ∅)).
    reflexivity.
Defined.

(** C10 as stated fails: with an empty title and a categories string
    that does not decode, the run is the logged decode error; the log of
    the missing parameters is not written. *)
Lemma C10_counterexample :
  let d := fields (PStr "") (PStr "not-json") in
  let r := process_media_and_post_async happy_env (PDict d) ∅ in
  dict_get d "title" = PStr "" ∧
  events r =
    [Log ERROR "Error processing categories: %s" [PStr "Expecting value"]] ∧
  Log ERROR "Missing required parameters" [] ∉ events r.
Proof.
  cbv zeta. split_and!; [reflexivity | reflexivity |].
  intros Hin. apply list_elem_of_In in Hin. vm_compute in Hin.
  destruct Hin as [Hin|[]]. discriminate Hin.
Qed.

(** ** The request handler *)

Section Handler.

Variable L : limits.
Variable rq : request.

Ltac handler_run :=
  unfold create_post, request_json, py_json_loads, json_dumps; unfold_ops.

Lemma create_post_authenticated {S} (s : S) (body : string) (v : pyval) :
  text rq = Ret body → json_loads L body = inl v →
  headers_get (headers rq) "key" = Some API_KEY →
  create_post L rq s =
  Run (Ret (json_response "Key authentication successful" 200)) s
    [Log INFO "Received request data: %s" [v];
     Log INFO "Key authentication successful" [];
     ThreadStart v].
Proof.
  intros Ht Hj Hk. handler_run. rewrite Ht. cbn. rewrite Hj. cbn.
  by rewrite bool_decide_eq_true_2.
Qed.

Lemma create_post_rejected {S} (s : S) (body : string) (v : pyval) :
  text rq = Ret body → json_loads L body = inl v →
  headers_get (headers rq) "key" ≠ Some API_KEY →
  create_post L rq s =
  Run (Ret (json_response "Key authentication failed" 401)) s
    [Log INFO "Received request data: %s" [v];
     Log ERROR "Key authentication failed" []].
Proof.
  intros Ht Hj Hk. handler_run. rewrite Ht. cbn. rewrite Hj. cbn.
  by rewrite bool_decide_eq_false_2.
Qed.

Lemma create_post_malformed {S} (s : S) (body detail : string) :
  text rq = Ret body → json_loads L body = inr (DecodeError detail) →
  create_post L rq s =
  Run (Ret (json_response "Invalid JSON format" 400)) s
    [Log ERROR "Error processing request JSON: %s" [PStr detail]].
Proof.
  intros Ht Hj. handler_run. rewrite Ht. cbn. by rewrite Hj.
Qed.

(** The scanner met a limit of the interpreter: the exception is no
    decode error, and the last clause answers. *)
Lemma create_post_limit {S} (s : S) (body : string) (l : limit_reached) :
  text rq = Ret body → json_loads L body = inr (LimitReached l) →
  create_post L rq s =
  Run (Ret (json_response
              ("Internal server error: "
               +:+ exn_msg (exn_of_failure L (LimitReached l))) 500)) s
    [Log ERROR "Error processing request: %s"
       [PStr (exn_msg (exn_of_failure L (LimitReached l)))]].
Proof.
  intros Ht Hj. handler_run. rewrite Ht. cbn. rewrite Hj. by destruct l.
Qed.

(** The body could not be read: the exception decides between the two
    outer handlers. *)
Lemma create_post_unreadable {S} (s : S) (e : exn) :
  text rq = Raise e →
  create_post L rq s =
  if is_JSONDecodeError (exn_cls e) then
    Run (Ret (json_response "Invalid JSON format" 400)) s
      [Log ERROR "Error processing request JSON: %s" [PStr (exn_msg e)]]
  else
    Run (Ret (json_response ("Internal server error: " +:+ exn_msg e) 500)) s
      [Log ERROR "Error processing request: %s" [PStr (exn_msg e)]].
Proof.
  intros Ht. handler_run. rewrite Ht. cbn.
  by destruct (is_JSONDecodeError (exn_cls e)).
Qed.

(** The handler always answers, touches no state, and starts a thread
    only on the authenticated path. *)
Lemma create_post_total {S} (s : S) :
  ∃ r evs, create_post L rq s = Run (Ret r) s evs ∧
    (headers_get (headers rq) "key" ≠ Some API_KEY →
     forallb (λ e, negb (is_upstream e) && negb (is_thread_start e)) evs = true) ∧
    (status r = 400 →
     r = json_response "Invalid JSON format" 400 ∧
     forallb (λ e, negb (is_upstream e) && negb (is_thread_start e)) evs = true).
Proof.
  destruct (text rq) as [body|e] eqn:Ht.
  - destruct (json_loads L body) as [v|[detail|l]] eqn:Hj.
    + destruct (decide (headers_get (headers rq) "key" = Some API_KEY)) as [Hk|Hk].
      * rewrite (create_post_authenticated s body v Ht Hj Hk).
        do 2 eexists. split_and!; [done|done|]. intros [=].
      * rewrite (create_post_rejected s body v Ht Hj Hk).
        do 2 eexists. split_and!; [done|done|]. intros [=].
    + rewrite (create_post_malformed s body detail Ht Hj).
      do 2 eexists. split_and!; done.
    + rewrite (create_post_limit s body l Ht Hj).
      do 2 eexists. split_and!; [done|done|]. intros [=].
  - rewrite (create_post_unreadable s e Ht).
    destruct (is_JSONDecodeError (exn_cls e)).
    + do 2 eexists. split_and!; done.
    + do 2 eexists. split_and!; [done|done|]. intros [=].
Qed.

End Handler.

Lemma started_threads_none (evs : list event) :
  forallb (λ e, negb (is_upstream e) && negb (is_thread_start e)) evs = true →
  started_threads evs = [].
Proof.
  induction evs as [|e evs IH]; [done|]. simpl.
  intros [He Hevs]%andb_true_iff. unfold started_threads in *. simpl.
  rewrite (IH Hevs). by destruct e.
Qed.










(** ** Sample runs *)

(** The three kinds of exit of the upload after the temporary file was
    created: the upload succeeds, the media endpoint fails, a file
    operation fails.  The file is unlinked in each. *)
Example cleanup_on_success :
  let r :=
    upload_image_to_wordpress happy_env (PStr "https://img.example/a.jpg")
      (PStr "alt") (PStr "desc") (PStr "T") (PStr "editor") (PStr "secret") ∅ in
  result r = Ret (PInt 77) ∧ state_after r = ∅ ∧
  List.filter is_file_event (events r) =
    [FileCreate "tmp/0b5e_k3.jpg"; FileWrite "tmp/0b5e_k3.jpg" "JFIF";
     FileRead "tmp/0b5e_k3.jpg"; FileUnlink "tmp/0b5e_k3.jpg"].
Proof. cbv zeta. split_and!; reflexivity. Qed.

Example cleanup_on_upload_failure :
  let r :=
    upload_image_to_wordpress media_down_env (PStr "https://img.example/a.jpg")
      (PStr "alt") (PStr "desc") (PStr "T") (PStr "editor") (PStr "secret") ∅ in
  result r = Ret PNone ∧ state_after r = ∅ ∧
  List.filter is_file_event (events r) =
    [FileCreate "tmp/0b5e_k3.jpg"; FileWrite "tmp/0b5e_k3.jpg" "JFIF";
     FileRead "tmp/0b5e_k3.jpg"; FileUnlink "tmp/0b5e_k3.jpg"].
Proof. cbv zeta. split_and!; reflexivity. Qed.

Example cleanup_on_read_error :
  let r :=
    upload_image_to_wordpress read_fault_env (PStr "https://img.example/a.jpg")
      (PStr "alt") (PStr "desc") (PStr "T") (PStr "editor") (PStr "secret") ∅ in
  result r = Raise (Exn OSError "Input/output error") ∧ state_after r = ∅ ∧
  List.filter is_file_event (events r) =
    [FileCreate "tmp/0b5e_k3.jpg"; FileWrite "tmp/0b5e_k3.jpg" "JFIF";
     FileUnlink "tmp/0b5e_k3.jpg"].
Proof. cbv zeta. split_and!; reflexivity. Qed.

(** A request served to the end: the answer, and the upstream calls of
    the thread in their order. *)
Example served_request :
  let body :=
    "{" +:+ quoted "title" +:+ ": " +:+ quoted "T" +:+ ", "
    +:+ quoted "author" +:+ ": 7, "
    +:+ quoted "content" +:+ ": " +:+ quoted "Hello" +:+ ", "
    +:+ quoted "status" +:+ ": " +:+ quoted "publish" +:+ ", "
    +:+ quoted "categories" +:+ ": " +:+ quoted "[1,2,3]" +:+ ", "
    +:+ quoted "thumbnail_url" +:+ ": " +:+ quoted "https://img.example/a.jpg" +:+ ", "
    +:+ quoted "alt_text" +:+ ": " +:+ quoted "alt" +:+ ", "
    +:+ quoted "description" +:+ ": " +:+ quoted "desc" +:+ ", "
    +:+ quoted "username" +:+ ": " +:+ quoted "editor" +:+ ", "
    +:+ quoted "password" +:+ ": " +:+ quoted "secret" +:+ ", "
    +:+ quoted "daprun_id" +:+ ": " +:+ quoted "run-B" +:+ "}" in
  let '(answer, files, evs) := serve happy_env (with_key "Sample_Key" body) ∅ in
  answer = Ret (json_response "Key authentication successful" 200) ∧
  files = ∅ ∧
  List.filter is_upstream evs =
    [HttpGet (PStr "https://img.example/a.jpg") (PStr "editor") (PStr "secret");
     HttpPost media_url
       (DataMultipart
          (MultipartFields "T.jpg" "JFIF" "image/jpg" (PStr "alt") (PStr "T")
             (PStr "desc")))
       [("Content-Type", Plain "multipart/form-data; boundary=b");
        ("Authorization", Basic "editor" "secret")];
     HttpPost posts_url
       (DataText
          (PostPayload (PStr "T") (PInt 7) "Hello" (PStr "publish")
             (PList [PInt 1; PInt 2; PInt 3]) (PInt 77)))
       [("Content-Type", Plain "application/json");
        ("Authorization", Basic "editor" "secret")];
     SessionPost notify_url (notification (PInt 1234) (PStr "run-B"))
       notify_headers].
Proof. vm_compute. split_and!; reflexivity. Qed.

(** * Further properties of the program *)

(** ** The notifier *)

(** X1.  The notifier never raises and never touches the temporary
    directory: it sends exactly one request to the webhook, carrying the
    post id, the status [successful] and the run identifier, and it
    returns [True] exactly when the webhook answered with status 200 and
    the answer could be read; every failure is logged and gives [False]. *)
Theorem X1_notifier_swallows_failures (E : env) (post_id daprun_id : pyval)
    (s : fs) :
  let r := notify_successful_post E post_id daprun_id s in
  result r =
    Ret (PBool (notified_ok
                  (session_post E notify_url (notification post_id daprun_id)
                     notify_headers))) ∧
  state_after r = s ∧
  List.filter is_upstream (events r) =
    [SessionPost notify_url (notification post_id daprun_id) notify_headers] ∧
  (notified_ok
     (session_post E notify_url (notification post_id daprun_id)
        notify_headers) = false →
   existsb (λ e, match e with
                 | Log WARNING _ _ | Log ERROR _ _ => true
                 | _ => false
                 end) (events r) = true).
Proof.
  cbv zeta. unfold notify_successful_post, notified_ok, notification,
    notify_headers.
  run_paths; split_and!; try done; intros; simpl in *; congruence.
Qed.

(** ** The image fetch *)

Section Fetch.

Variable E : env.
Variables image_url alt description title username password : pyval.

Local Abbreviation up :=
  (upload_image_to_wordpress E image_url alt description title username
     password).

(** X7.  A failed image fetch.  When the download raises a
    [RequestException], or is answered with an error status, the upload
    step logs the error and returns [None]; no temporary file is
    created and the media endpoint is not called. *)
Theorem X7_failed_download (s : fs) :
  (∀ e, requests_get E image_url username password = Raise e →
        is_RequestException (exn_cls e) = true →
        up s =
        Run (Ret PNone) s
          [Log INFO "Uploading image..." [];
           HttpGet image_url username password;
           Log ERROR "Error uploading image: %s" [PStr (exn_msg e)]]) ∧
  (∀ resp, requests_get E image_url username password = Ret resp →
           status_ok resp = false →
           ∃ msg,
             up s =
             Run (Ret PNone) s
               [Log INFO "Uploading image..." [];
                HttpGet image_url username password;
                Log ERROR "Error uploading image: %s" [PStr msg]]).
Proof.
  split.
  - intros e Hget He. unfold upload_image_to_wordpress. unfold_ops.
    rewrite Hget. cbn. by rewrite He.
  - intros resp Hget Hst. unfold upload_image_to_wordpress. unfold_ops.
    rewrite Hget. unfold status_ok in Hst. apply negb_false_iff in Hst.
    apply andb_true_iff in Hst as [H4 H6].
    destruct ((400 <=? status_code resp) && (status_code resp <? 500)) eqn:Hc;
      cbn -[Z.leb Z.ltb]; rewrite ?Hc; cbn -[Z.leb Z.ltb]; [by eexists|].
    assert ((500 <=? status_code resp) && (status_code resp <? 600) = true)
      as Hs.
    { apply andb_false_iff in Hc. rewrite andb_true_iff.
      rewrite Z.leb_le, Z.ltb_lt in *. rewrite Z.leb_gt, Z.ltb_ge in Hc. lia. }
    rewrite Hs. cbn. by eexists.
Qed.

(** X8.  What the media endpoint receives.  The media request is sent
    only after the image was downloaded with a good status; the file
    part holds exactly the downloaded bytes (they went through the
    temporary file unchanged) under the name [title + '.jpg'] and the
    type [image/jpg]; alt text, caption (the title) and description are
    the arguments; the request is authorised with the username and
    password of the arguments. *)
Theorem X8_media_request (s : fs) data hdrs :
  HttpPost media_url data hdrs ∈ events (up s) →
  ∃ resp filename content_type auth,
    requests_get E image_url username password = Ret resp ∧
    status_ok resp = true ∧
    str_concat title ".jpg" = Ret filename ∧
    data = DataMultipart
             (MultipartFields filename (content resp) "image/jpg" alt title
                description) ∧
    basic_auth username password = Ret auth ∧
    hdrs = [("Content-Type", Plain content_type); ("Authorization", auth)].
Proof.
  unfold upload_image_to_wordpress. run_paths; intros Hin; event_cases Hin.
  all: fs_solve.
  all: do 4 eexists; split_and!; eauto using status_ok_true.
Qed.

(** The upstream calls of the upload step: the download, then the media
    upload; both are there, and the temporary file is already unlinked,
    when the step returns a truthy value. *)
Lemma upload_calls (s : fs) :
  upstream_kinds (events (up s)) `prefix_of` [Download; MediaUpload] ∧
  (∀ v, result (up s) = Ret v → truthy v = true →
     upstream_kinds (events (up s)) = [Download; MediaUpload] ∧
     existsb is_unlink (events (up s)) = true).
Proof.
  unfold upload_image_to_wordpress. run_paths; split.
  all: try (intros; simplify_eq/=; done).
  all: try (by exists [Download; MediaUpload]).
  all: try (by exists [MediaUpload]).
  all: by exists [].
Qed.

(** A title that is not a string stops the upload before the media
    request. *)
Lemma upload_needs_string_title (s : fs) :
  (∀ t, title ≠ PStr t) →
  forallb (λ e, negb (is_media_upload e)) (events (up s)) = true ∧
  ∀ v, result (up s) = Ret v → v = PNone.
Proof.
  intros Ht. unfold upload_image_to_wordpress. run_paths; split.
  all: try done.
  all: try (intros; by simplify_eq/=).
  all: destruct title; simplify_eq/=; exfalso; by eapply Ht.
Qed.

End Fetch.

(** ** The post request *)

Lemma format_d_ret (v w : pyval) : format_d v = Ret w → w = v.
Proof.
  destruct v as [| | |f| | |]; simpl; try done; try (by intros [= ->]).
  destruct f; simpl; try done. destruct (_ : bool); [done|by intros [= ->]].
Qed.

Lemma prefix_of_call_order (l : list call_kind) :
  l `prefix_of` [Download; MediaUpload] → l `prefix_of` call_order.
Proof.
  intros [k Hk]. exists (k ++ [PostCreation; Notification])%list.
  rewrite app_assoc, <- Hk. done.
Qed.

Lemma upstream_kinds_app (l1 l2 : list event) :
  upstream_kinds (l1 ++ l2) = (upstream_kinds l1 ++ upstream_kinds l2)%list.
Proof. unfold upstream_kinds. apply omap_app. Qed.

Section Post.

Variable E : env.
Variables title author content status categories thumbnail_url alt
  description username password daprun_id : pyval.

Local Abbreviation up :=
  (upload_image_to_wordpress E thumbnail_url alt description title username
     password).

Local Abbreviation cp :=
  (create_post_in_wordpress E title author content status categories
     thumbnail_url alt description username password daprun_id).

(** Name the run [r] of the function and the run of its upload step. *)
Ltac post_start s r uo uevs Hup :=
  remember (cp s) as r eqn:Hr; revert Hr;
  unfold create_post_in_wordpress, notify_successful_post; unfold_ops;
  let us := fresh "us" in
  destruct (up s) as [uo us uevs] eqn:Hup;
  let Hfs := fresh "Hfs" in
  pose proof (upload_restores_fs E thumbnail_url alt description title
                username password s) as Hfs;
  rewrite Hup in Hfs; simpl in Hfs; subst us.

Ltac post_paths :=
  run_paths; intros ->;
  rewrite <- ?app_assoc, ?app_nil_r;
  cbn -[guarded temp_files_removed forallb upstream_kinds].

(** The events of the upload step are not requests to the posts
    endpoint nor notifications. *)
Lemma upload_quiet (s : fs) (e : event) :
  e ∈ events (up s) → is_post_creation e = false ∧ is_notification e = false.
Proof.
  intros Hin.
  pose proof (upload_events E thumbnail_url alt description title username
                password s) as Hev.
  apply (forallb_elem_of _ _ _ Hev) in Hin. unfold upload_event in Hin.
  rewrite !andb_true_iff, !negb_true_iff in Hin. tauto.
Qed.

(** X9.  What the posts endpoint receives.  The post request is sent
    only after the upload step returned a truthy media identifier; its
    payload holds the title, author and status of the arguments, the
    content with quotes and newlines escaped, the categories, and the
    media identifier as featured media; it is authorised with the
    username and password of the arguments. *)
Theorem X9_post_request (s : fs) data hdrs :
  HttpPost posts_url data hdrs ∈ events (cp s) →
  ∃ id escaped auth,
    result (up s) = Ret id ∧ truthy id = true ∧
    escape_content content = Ret escaped ∧
    data = DataText (PostPayload title author escaped status categories id) ∧
    basic_auth username password = Ret auth ∧
    hdrs = [("Content-Type", Plain "application/json"); ("Authorization", auth)].
Proof.
  pose proof (upload_quiet s) as Hq. revert Hq.
  post_start s r uo uevs Hup. post_paths; intros Hq Hin.
  all: rewrite ?elem_of_app in Hin; destruct_or? Hin.
  all: try (apply Hq in Hin as [Hp _]; by vm_compute in Hp).
  all: event_cases Hin; simplify_eq/=.
  all: match goal with
       | H : format_d _ = Ret _ |- _ => apply format_d_ret in H as ->
       end.
  all: do 3 eexists; split_and!; eauto.
Qed.

(** X2.  The result of the post creation does not depend on the
    notifier: once the posts endpoint has answered the request with a
    good status and a JSON body that has an [id], the function returns
    that body, whatever the webhook does. *)
Theorem X2_result_ignores_notifier (s : fs) data hdrs resp rd pid :
  HttpPost posts_url data hdrs ∈ events (cp s) →
  requests_post E posts_url data hdrs = Ret resp →
  status_ok resp = true →
  json resp = Ret rd →
  py_getitem rd "id" = Ret pid →
  result (cp s) = Ret rd ∧ state_after (cp s) = s.
Proof.
  intros Hin Hresp Hok Hjson Hid. revert Hin.
  pose proof (status_ok_not_client _ Hok) as Hc.
  pose proof (status_ok_not_server _ Hok) as Hs.
  pose proof (upload_quiet s) as Hq. revert Hq.
  post_start s r uo uevs Hup. post_paths; intros Hq Hin.
  all: rewrite ?elem_of_app in Hin; destruct_or? Hin.
  all: try (apply Hq in Hin as [Hp _]; by vm_compute in Hp).
  all: event_cases Hin; simplify_eq; try congruence.
  all: match goal with
       | H1 : requests_post _ _ _ _ = Ret ?a, H2 : requests_post _ _ _ _ = Ret ?b
         |- _ => assert (a = b) as -> by congruence
       end.
  all: try congruence.
  all: split; [congruence|done].
Qed.

(** X15.  A content that is not a string.  No post request and no
    notification is made; when the upload step has returned a media
    identifier, the function raises [AttributeError] right after it: the
    media stays uploaded and no post refers to it. *)
Theorem X15_content_not_a_string (s : fs) :
  (∀ t, content ≠ PStr t) →
  forallb (λ e, negb (is_post_creation e) && negb (is_notification e))
    (events (cp s)) = true ∧
  (∀ id, result (up s) = Ret id → truthy id = true →
     cp s =
     Run (Raise (Exn AttributeError "object has no attribute 'replace'")) s
       (events (up s))).
Proof.
  intros Hc.
  assert (escape_content content =
          Raise (Exn AttributeError "object has no attribute 'replace'"))
    as Hesc.
  { destruct content; try done. by destruct (Hc s0). }
  assert (forallb (λ e, negb (is_post_creation e) && negb (is_notification e))
            (events (up s)) = true) as Hq.
  { pose proof (upload_events E thumbnail_url alt description title username
                  password s) as Hev.
    revert Hev. apply forallb_weaken. intros e He. unfold upload_event in He.
    rewrite !andb_true_iff in He. rewrite andb_true_iff. tauto. }
  revert Hq. post_start s r uo uevs Hup. rewrite Hesc.
  post_paths; intros Hq; split; rewrite ?forallb_app, ?Hq; try done.
  all: intros; simplify_eq/=; congruence.
Qed.

(** The upstream calls of the post creation come in the order of
    [call_order], and a post request comes after the temporary file was
    unlinked. *)
Lemma create_post_calls (s : fs) :
  upstream_kinds (events (cp s)) `prefix_of` call_order ∧
  guarded is_unlink is_post_creation false (events (cp s)) = true.
Proof.
  pose proof (upload_calls E thumbnail_url alt description title username
                password s) as [Hpre Hfull].
  pose proof (upload_events E thumbnail_url alt description title username
                password s) as Hev.
  revert Hpre Hfull Hev. post_start s r uo uevs Hup.
  intros Hr Hpre Hfull Hev. simpl in Hpre, Hfull, Hev. revert Hr.
  assert (∀ seen, guarded is_unlink is_post_creation seen uevs = true) as Hg.
  { intros seen. apply guarded_no_Q. revert Hev. apply forallb_weaken.
    intros e He. unfold upload_event in He.
    rewrite !andb_true_iff in He. tauto. }
  post_paths; rewrite ?upstream_kinds_app, ?guarded_app, ?Hg.
  all: try (destruct (Hfull _ eq_refl ltac:(done)) as [-> ->]).
  all: cbn; rewrite ?app_nil_r; split; try done.
  all: try (by apply prefix_of_call_order).
  all: try (by exists []).
  all: try (by exists [Notification]).
  all: by exists [PostCreation; Notification].
Qed.

(** A title that is not a string: the post creation makes no media
    upload, no post request and no notification. *)
Lemma create_post_needs_string_title (s : fs) :
  (∀ t, title ≠ PStr t) →
  forallb (λ e, negb (is_media_upload e) && negb (is_post_creation e)
                && negb (is_notification e)) (events (cp s)) = true.
Proof.
  intros Ht.
  pose proof (upload_needs_string_title E thumbnail_url alt description title
                username password s Ht) as [Hm Hv].
  pose proof (upload_events E thumbnail_url alt description title username
                password s) as Hev.
  revert Hm Hv Hev. post_start s r uo uevs Hup.
  intros Hr Hm Hv Hev. simpl in Hm, Hv, Hev. revert Hr.
  assert (forallb (λ e, negb (is_media_upload e) && negb (is_post_creation e)
                        && negb (is_notification e)) uevs = true) as Hq.
  { apply forallb_forall. intros e Hin.
    pose proof (proj1 (forallb_forall _ _) Hm e Hin) as H1.
    pose proof (proj1 (forallb_forall _ _) Hev e Hin) as H2.
    unfold upload_event in H2. rewrite !andb_true_iff in H2.
    rewrite !andb_true_iff. tauto. }
  post_paths; rewrite ?forallb_app, ?Hq; try done.
  all: by rewrite (Hv _ eq_refl) in *.
Qed.

End Post.

(** ** The pipeline as a whole *)

Section Whole.

Variable E : env.

Local Abbreviation pipeline := (process_media_and_post_async E).

Ltac whole_paths s r :=
  remember (pipeline _ s) as r eqn:Hr; revert Hr;
  unfold process_media_and_post_async, py_json_loads, py_get;
  run_paths; intros ->;
  rewrite <- ?app_assoc, ?app_nil_r; cbn -[guarded forallb].

(** The fact [lem] on the post creation, for the run found on a path. *)
Ltac use_create_post lem :=
  match goal with
  | Heq : create_post_in_wordpress ?E ?a ?b ?c ?d ?e ?f ?g ?h ?i ?j ?k ?s = _
    |- _ =>
      let H := fresh "Hcp" in
      pose proof (lem E a b c d e f g h i j k s) as H;
      rewrite Heq in H; simpl in H
  end.

Lemma pipeline_calls (req_data : pyval) (s : fs) :
  upstream_kinds (events (pipeline req_data s)) `prefix_of` call_order ∧
  guarded is_unlink is_post_creation false (events (pipeline req_data s)) = true.
Proof.
  whole_paths s r; try (by split; [eexists|]).
  all: use_create_post create_post_calls; tauto.
Qed.

(** X11.  No retry, no reordering.  The upstream calls of every pipeline
    run are an initial part of the sequence: image download, media
    upload, post request, notification.  Each call is made at most once,
    none is made before the one that precedes it, and no other upstream
    service is called. *)
Theorem X11_call_order (req_data : pyval) (s : fs) :
  upstream_kinds (events (pipeline req_data s)) `prefix_of` call_order.
Proof. apply pipeline_calls. Qed.

(** X16.  In every pipeline run, a post request is sent only after the
    temporary image file was unlinked. *)
Theorem X16_unlink_before_post (req_data : pyval) (s : fs) :
  precedes is_unlink is_post_creation (events (pipeline req_data s)).
Proof.
  apply guarded_precedes, pipeline_calls.
Qed.

(** A value that is not a [dict] has no [get]: the pipeline raises at
    the first field access. *)
Lemma pipeline_not_an_object (req_data : pyval) (s : fs) :
  (∀ d, req_data ≠ PDict d) →
  pipeline req_data s =
  Run (Raise (Exn AttributeError "object has no attribute 'get'")) s [].
Proof.
  intros Hd. destruct req_data; try done. by destruct (Hd d).
Qed.

(** X6.  A categories value that is neither a string nor a list (a
    missing field, a number, an object) ends the run with the logged
    type error on categories: the presence test is not reached and no
    upstream call is made. *)
Theorem X6_categories_of_wrong_type (d : list (string * pyval)) (s : fs) :
  (∀ str, dict_get d "categories" ≠ PStr str) →
  (∀ l, dict_get d "categories" ≠ PList l) →
  pipeline (PDict d) s =
  Run (Ret tt) s
    [Log ERROR
       "Categories should be a list or a JSON-encoded string representing a list"
       []].
Proof.
  intros Hs Hl. apply pipeline_of_other; [|done].
  destruct (dict_get d "categories") eqn:Hc; try done.
  - by destruct (Hs s0).
  - by destruct (Hl l).
Qed.

Lemma required_present_all (d : list (string * pyval)) (c : pyval) :
  required_present d c = true →
  truthy c = true ∧ ∀ k, k ∈ text_fields → truthy (dict_get d k) = true.
Proof.
  unfold required_present. rewrite !andb_true_iff.
  intros ((((((((((? & ?) & ?) & ?) & ?) & ?) & ?) & ?) & ?) & ?) & ?).
  split; [done|]. intros k Hk. apply list_elem_of_In in Hk. simpl in Hk.
  repeat (destruct Hk as [<-|Hk]; [done|]). destruct Hk.
Qed.

(** X12.  An upstream call is made only for a complete request: every
    required text field is truthy and the categories value, after
    normalisation (the list itself, or the value its string decodes to),
    is truthy. *)
Theorem X12_upstream_needs_all_fields (d : list (string * pyval)) (s : fs) :
  existsb is_upstream (events (pipeline (PDict d) s)) = true →
  (∀ k, k ∈ text_fields → truthy (dict_get d k) = true) ∧
  ∃ c, truthy c = true ∧
       ((∃ l, dict_get d "categories" = PList l ∧ c = PList l) ∨
        (∃ str, dict_get d "categories" = PStr str ∧
                json_loads (thread_limits E) str = inl c)).
Proof.
  assert (∀ c, existsb is_upstream (events (check_and_create E d c s)) = true →
               required_present d c = true) as Hcheck.
  { intros c. unfold check_and_create.
    by destruct (required_present d c). }
  destruct (dict_get d "categories") as [| | | |str|l|] eqn:Hc.
  all: try (rewrite pipeline_of_other; rewrite ?Hc; done).
  - rewrite (pipeline_of_string E d str s Hc).
    destruct (json_loads (thread_limits E) str) as [v|[msg|l]] eqn:Hj;
      [|done|done].
    intros Hup. apply Hcheck, required_present_all in Hup as [Hv Hk].
    split; [done|]. exists v. split; [done|]. right. by exists str.
  - rewrite (pipeline_of_list E d l s Hc).
    intros Hup. apply Hcheck, required_present_all in Hup as [Hv Hk].
    split; [done|]. exists (PList l). split; [done|]. left. by exists l.
Qed.

(** X14.  A title that is not a string.  The presence test lets a
    truthy title of another type pass (a number, a list); the run then
    makes no media upload, no post request and no notification. *)
Theorem X14_title_not_a_string (d : list (string * pyval)) (s : fs) :
  (∀ t, dict_get d "title" ≠ PStr t) →
  forallb (λ e, negb (is_media_upload e) && negb (is_post_creation e)
                && negb (is_notification e))
    (events (pipeline (PDict d) s)) = true.
Proof.
  intros Ht. revert Ht. whole_paths s r; intros Ht; try done.
  all: match goal with
       | Heq : create_post_in_wordpress ?E ?a ?b ?c ?d ?e ?f ?g ?h ?i ?j ?k ?s
               = _ |- _ =>
           pose proof (create_post_needs_string_title E a b c d e f g h i j k
                         s Ht) as Hcp;
           rewrite Heq in Hcp; simpl in Hcp
       end.
  all: done.
Qed.

End Whole.

(** ** The handler and the server *)

Lemma no_upstream_kinds (l : list event) :
  forallb (λ e, negb (is_upstream e)) l = true → upstream_kinds l = [].
Proof.
  induction l as [|e l IH]; [done|]. simpl.
  intros [He Hl]%andb_true_iff. unfold upstream_kinds in *. simpl.
  rewrite (IH Hl). by destruct e.
Qed.

Lemma no_upstream_existsb (l : list event) :
  forallb (λ e, negb (is_upstream e)) l = true → existsb is_upstream l = false.
Proof.
  induction l as [|e l IH]; [done|]. simpl.
  intros [He Hl]%andb_true_iff. rewrite (IH Hl).
  by destruct (is_upstream e).
Qed.

(** The four answers of the handler. *)
Lemma create_post_cases {S} (L : limits) (rq : request) (s : S) :
  ∃ r evs,
    create_post L rq s = Run (Ret r) s evs ∧
    forallb (λ e, negb (is_upstream e)) evs = true ∧
    ((status r = 200 ∧
      ∃ body v, text rq = Ret body ∧ json_loads L body = inl v ∧
                headers_get (headers rq) "key" = Some API_KEY ∧
                started_threads evs = [v]) ∨
     ((status r = 400 ∨ status r = 401 ∨ status r = 500) ∧
      started_threads evs = [])).
Proof.
  destruct (text rq) as [body|e] eqn:Ht.
  - destruct (json_loads L body) as [v|[detail|l]] eqn:Hj.
    + destruct (decide (headers_get (headers rq) "key" = Some API_KEY))
        as [Hk|Hk].
      * rewrite (create_post_authenticated L rq s body v Ht Hj Hk).
        do 2 eexists. split_and!; [done|done|]. left. split; [done|].
        by exists body, v.
      * rewrite (create_post_rejected L rq s body v Ht Hj Hk).
        do 2 eexists. split_and!; [done|done|]. right. simpl. tauto.
    + rewrite (create_post_malformed L rq s body detail Ht Hj).
      do 2 eexists. split_and!; [done|done|]. right. simpl. tauto.
    + rewrite (create_post_limit L rq s body l Ht Hj).
      do 2 eexists. split_and!; [done|done|]. right. simpl. tauto.
  - rewrite (create_post_unreadable L rq s e Ht).
    destruct (is_JSONDecodeError (exn_cls e)).
    + do 2 eexists. split_and!; [done|done|]. right. simpl. tauto.
    + do 2 eexists. split_and!; [done|done|]. right. simpl. tauto.
Qed.

(** X3.  The handler always answers, with status 200, 400, 401 or 500,
    and leaves the state as it is; it makes no upstream call itself; it
    starts the pipeline thread exactly when it answers 200 (the body
    decoded and the key matched), once, on the decoded body. *)
Theorem X3_handler_answers (L : limits) (rq : request) (s : fs) :
  ∃ r evs,
    create_post L rq s = Run (Ret r) s evs ∧
    forallb (λ e, negb (is_upstream e)) evs = true ∧
    ((status r = 200 ∧
      ∃ body v, text rq = Ret body ∧ json_loads L body = inl v ∧
                headers_get (headers rq) "key" = Some API_KEY ∧
                started_threads evs = [v]) ∨
     ((status r = 400 ∨ status r = 401 ∨ status r = 500) ∧
      started_threads evs = [])).
Proof. apply create_post_cases. Qed.

(** X4.  A body that cannot be read.  When reading the body raises an
    exception that is not a JSON decode error, the request is answered
    500 with the text of the exception in the message; the pipeline is
    not started, whatever the key. *)
Theorem X4_unreadable_body (E : env) (rq : request) (s : fs) (e : exn) :
  text rq = Raise e →
  is_JSONDecodeError (exn_cls e) = false →
  serve E rq s =
  (Ret (json_response ("Internal server error: " +:+ exn_msg e) 500), s,
   [Log ERROR "Error processing request: %s" [PStr (exn_msg e)]]).
Proof.
  intros Ht He. unfold serve.
  rewrite (create_post_unreadable _ rq s e Ht), He. done.
Qed.


(** X17.  A body that the interpreter gives up on.  When the scanner
    meets the recursion limit or the digit limit of [int] in the body,
    the exception is no decode error: the last clause of the handler
    answers 500 with the text of the exception, the error is logged,
    and the pipeline is not started, whatever the key. *)
Theorem X17_body_over_the_limits (E : env) (rq : request) (s : fs)
    (body : string) (l : limit_reached) :
  text rq = Ret body →
  json_loads (request_limits E) body = inr (LimitReached l) →
  is_JSONDecodeError
    (exn_cls (exn_of_failure (request_limits E) (LimitReached l))) = false ∧
  serve E rq s =
  (Ret (json_response
          ("Internal server error: "
           +:+ exn_msg (exn_of_failure (request_limits E) (LimitReached l)))
          500), s,
   [Log ERROR "Error processing request: %s"
      [PStr (exn_msg (exn_of_failure (request_limits E) (LimitReached l)))]]).
Proof.
  intros Ht Hj. split; [by destruct l|].
  unfold serve. by rewrite (create_post_limit _ rq s body l Ht Hj).
Qed.

(** X13.  A served request.  Whatever the request and whatever the
    collaborators do, the temporary directory is left as it was; the
    upstream calls are an initial part of the sequence download, media
    upload, post, notification; and an upstream call is made only for a
    request that was answered 200. *)
Theorem X13_served_request (E : env) (rq : request) (s : fs) :
  (serve E rq s).1.2 = s ∧
  upstream_kinds (serve E rq s).2 `prefix_of` call_order ∧
  (existsb is_upstream (serve E rq s).2 = true →
   ∃ r, (serve E rq s).1.1 = Ret r ∧ status r = 200).
Proof.
  destruct (create_post_cases (request_limits E) rq s)
    as (r & evs & Hrun & Hq & Hcases).
  unfold serve. rewrite Hrun. simpl.
  destruct Hcases as [(Hst & body & v & _ & _ & _ & Hth) | (Hst & Hth)];
    rewrite Hth; simpl.
  - unfold process_media_and_post.
    destruct (process_media_and_post_async E v s) as [po ps pevs] eqn:Hp.
    simpl. rewrite app_nil_r.
    pose proof (pipeline_invariants E v s) as (Hfs & _).
    pose proof (pipeline_calls E v s) as (Hcalls & _).
    rewrite Hp in Hfs, Hcalls. simpl in Hfs, Hcalls.
    split_and!; [done| |by eauto].
    by rewrite upstream_kinds_app, (no_upstream_kinds evs Hq).
  - rewrite app_nil_r. split_and!; [done| |].
    + rewrite (no_upstream_kinds evs Hq). by eexists.
    + by rewrite (no_upstream_existsb evs Hq).
Qed.

(** ** The escaping of the content *)

Section Escape.

Local Abbreviation nl := ("010"%char).

Lemma replace_newline_gone (s : string) :
  occurs nl (replace_char nl (String backslash "n") s) = false.
Proof.
  induction s as [|a s IH]; simpl; [done|].
  destruct (Ascii.eqb a nl) eqn:Ha; simpl; rewrite ?Ha; exact IH.
Qed.

Lemma replace_newline_quotes (s : string) : ∀ p,
  quotes_escaped_from p (replace_char nl (String backslash "n") s) =
  quotes_escaped_from p s.
Proof.
  induction s as [|a s IH]; intros p; simpl; [done|].
  destruct (Ascii.eqb a nl) eqn:Ha; simpl.
  - apply Ascii.eqb_eq in Ha as ->. exact (IH false).
  - f_equal. exact (IH _).
Qed.

Lemma replace_quote_escaped (s : string) : ∀ p,
  quotes_escaped_from p
    (replace_char dq (String backslash (String dq "")) s) = true.
Proof.
  induction s as [|a s IH]; intros p; simpl; [done|].
  destruct (Ascii.eqb a dq) eqn:Ha; simpl.
  - exact (IH false).
  - rewrite Ha. exact (IH _).
Qed.

Lemma replace_absent (c : ascii) (by_ s : string) :
  occurs c s = false → replace_char c by_ s = s.
Proof.
  induction s as [|a s IH]; simpl; [done|].
  intros [Ha Hs]%orb_false_iff. by rewrite Ha, IH.
Qed.

(** X10.  The escaping of the content never fails on a string; the
    escaped text holds no newline character, and every double quote in
    it has a backslash right before it; a content without double quotes
    and newlines is passed as it is. *)
Theorem X10_escaped_content (s : string) :
  ∃ t, escape_content (PStr s) = Ret t ∧
       occurs "010" t = false ∧
       quotes_escaped t = true ∧
       (occurs dq s = false → occurs "010" s = false → t = s).
Proof.
  eexists. split; [reflexivity|]. split_and!.
  - apply replace_newline_gone.
  - unfold quotes_escaped. rewrite replace_newline_quotes.
    apply replace_quote_escaped.
  - intros Hq Hn. by rewrite (replace_absent dq _ s Hq), replace_absent.
Qed.

End Escape.

(** ** Runs that show the properties at work *)

Lemma X2_witness :
  let cp :=
    create_post_in_wordpress webhook_down_env (PStr "T") (PStr "7")
      (PStr "Hello") (PStr "publish") (int_list [1; 2])
      (PStr "https://img.example/a.jpg") (PStr "alt") (PStr "desc")
      (PStr "editor") (PStr "secret") (PStr "run-B") ∅ in
  result cp = Ret (PDict [("id", PInt 1234)]) ∧ state_after cp = ∅.
Proof.
  refine (X2_result_ignores_notifier webhook_down_env (PStr "T") (PStr "7")
            (PStr "Hello") (PStr "publish") (int_list [1; 2])
            (PStr "https://img.example/a.jpg") (PStr "alt") (PStr "desc")
            (PStr "editor") (PStr "secret") (PStr "run-B") ∅
            (DataText
               (PostPayload (PStr "T") (PStr "7") "Hello" (PStr "publish")
                  (int_list [1; 2]) (PInt 77)))
            [("Content-Type", Plain "application/json");
             ("Authorization", Basic "editor" "secret")]
            (HttpResponse 201 "" (Ret (PDict [("id", PInt 1234)])))
            (PDict [("id", PInt 1234)]) (PInt 1234) _ _ _ _ _).
  - apply list_elem_of_In. vm_compute. tauto.
  - reflexivity.
  - reflexivity.
  - reflexivity.
  - reflexivity.
Defined.

Lemma X4_witness :
  serve happy_env (unreadable (Exn OtherException "Connection reset")) ∅ =
  (Ret (json_response "Internal server error: Connection reset" 500), ∅,
   [Log ERROR "Error processing request: %s" [PStr "Connection reset"]]).
Proof.
  apply (X4_unreadable_body happy_env
           (unreadable (Exn OtherException "Connection reset")) ∅
           (Exn OtherException "Connection reset")); reflexivity.
Defined.


Lemma X17_witness :
  serve happy_env (without_key (nested 1001)) ∅ =
  (Ret (json_response
          "Internal server error: maximum recursion depth exceeded while decoding a JSON array from a unicode string"
          500), ∅,
   [Log ERROR "Error processing request: %s"
      [PStr "maximum recursion depth exceeded while decoding a JSON array from a unicode string"]]).
Proof.
  refine (proj2 (X17_body_over_the_limits happy_env
                   (without_key (nested 1001)) ∅ (nested 1001)
                   (RecursionLimit false) _ _)).
  - reflexivity.
  - vm_compute. reflexivity.
Defined.

Lemma X6_witness :
  process_media_and_post_async happy_env (PDict [("title", PStr "T")]) ∅ =
  Run (Ret tt) ∅
    [Log ERROR
       "Categories should be a list or a JSON-encoded string representing a list"
       []].
Proof.
  apply (X6_categories_of_wrong_type happy_env [("title", PStr "T")] ∅);
    intros x; vm_compute; discriminate.
Defined.

Lemma X7_witness :
  ∃ msg,
    upload_image_to_wordpress image_missing_env
      (PStr "https://img.example/a.jpg") (PStr "alt") (PStr "desc") (PStr "T")
      (PStr "editor") (PStr "secret") ∅ =
    Run (Ret PNone) ∅
      [Log INFO "Uploading image..." [];
       HttpGet (PStr "https://img.example/a.jpg") (PStr "editor") (PStr "secret");
       Log ERROR "Error uploading image: %s" [PStr msg]].
Proof.
  apply (proj2 (X7_failed_download image_missing_env
                  (PStr "https://img.example/a.jpg") (PStr "alt") (PStr "desc")
                  (PStr "T") (PStr "editor") (PStr "secret") ∅)
           (HttpResponse 404 ""
              (Raise (Exn RequestsJSONDecodeError "Expecting value"))));
    reflexivity.
Defined.

Lemma X8_witness :
  ∃ resp filename content_type auth,
    requests_get happy_env (PStr "https://img.example/a.jpg") (PStr "editor")
      (PStr "secret") = Ret resp ∧
    status_ok resp = true ∧
    str_concat (PStr "T") ".jpg" = Ret filename ∧
    DataMultipart
      (MultipartFields "T.jpg" "JFIF" "image/jpg" (PStr "alt") (PStr "T")
         (PStr "desc")) =
    DataMultipart
      (MultipartFields filename (content resp) "image/jpg" (PStr "alt")
         (PStr "T") (PStr "desc")) ∧
    basic_auth (PStr "editor") (PStr "secret") = Ret auth ∧
    [("Content-Type", Plain "multipart/form-data; boundary=b");
     ("Authorization", Basic "editor" "secret")] =
    [("Content-Type", Plain content_type); ("Authorization", auth)].
Proof.
  apply (X8_media_request happy_env (PStr "https://img.example/a.jpg")
           (PStr "alt") (PStr "desc") (PStr "T") (PStr "editor")
           (PStr "secret") ∅).
  apply list_elem_of_In. vm_compute. tauto.
Defined.

Lemma X9_witness :
  ∃ id escaped auth,
    result (upload_image_to_wordpress happy_env
              (PStr "https://img.example/a.jpg") (PStr "alt") (PStr "desc")
              (PStr "T") (PStr "editor") (PStr "secret") ∅) = Ret id ∧
    truthy id = true ∧
    escape_content (PStr "Hello") = Ret escaped ∧
    DataText
      (PostPayload (PStr "T") (PStr "7") "Hello" (PStr "publish")
         (int_list [1; 2]) (PInt 77)) =
    DataText
      (PostPayload (PStr "T") (PStr "7") escaped (PStr "publish")
         (int_list [1; 2]) id) ∧
    basic_auth (PStr "editor") (PStr "secret") = Ret auth ∧
    [("Content-Type", Plain "application/json");
     ("Authorization", Basic "editor" "secret")] =
    [("Content-Type", Plain "application/json"); ("Authorization", auth)].
Proof.
  apply (X9_post_request happy_env (PStr "T") (PStr "7") (PStr "Hello")
           (PStr "publish") (int_list [1; 2])
           (PStr "https://img.example/a.jpg") (PStr "alt") (PStr "desc")
           (PStr "editor") (PStr "secret") (PStr "run-B") ∅).
  apply list_elem_of_In. vm_compute. tauto.
Defined.

Lemma X12_witness :
  let d := fields (PStr "T") (PStr "[1,2,3]") in
  (∀ k, k ∈ text_fields → truthy (dict_get d k) = true) ∧
  ∃ c, truthy c = true ∧
       ((∃ l, dict_get d "categories" = PList l ∧ c = PList l) ∨
        (∃ str, dict_get d "categories" = PStr str ∧
                json_loads (thread_limits happy_env) str = inl c)).
Proof.
  apply (X12_upstream_needs_all_fields happy_env
           (fields (PStr "T") (PStr "[1,2,3]")) ∅).
  reflexivity.
Defined.

Lemma X14_witness :
  let r :=
    process_media_and_post_async happy_env
      (PDict (fields (PInt 5) (int_list [1; 2]))) ∅ in
  forallb (λ e, negb (is_media_upload e) && negb (is_post_creation e)
                && negb (is_notification e)) (events r) = true.
Proof.
  apply (X14_title_not_a_string happy_env (fields (PInt 5) (int_list [1; 2])) ∅).
  intros t. vm_compute. discriminate.
Defined.

Lemma X15_witness :
  let up :=
    upload_image_to_wordpress happy_env (PStr "https://img.example/a.jpg")
      (PStr "alt") (PStr "desc") (PStr "T") (PStr "editor") (PStr "secret") ∅ in
  create_post_in_wordpress happy_env (PStr "T") (PStr "7") (PInt 3)
    (PStr "publish") (int_list [1; 2]) (PStr "https://img.example/a.jpg")
    (PStr "alt") (PStr "desc") (PStr "editor") (PStr "secret") (PStr "run-B") ∅ =
  Run (Raise (Exn AttributeError "object has no attribute 'replace'")) ∅
    (events up).
Proof.
  refine (proj2 (X15_content_not_a_string happy_env (PStr "T") (PStr "7")
                   (PInt 3) (PStr "publish") (int_list [1; 2])
                   (PStr "https://img.example/a.jpg") (PStr "alt") (PStr "desc")
                   (PStr "editor") (PStr "secret") (PStr "run-B") ∅ _)
            (PInt 77) _ _).
  - intros t. discriminate.
  - reflexivity.
  - reflexivity.
Defined.

(** A title that is a number: the image is downloaded, the temporary
    file is created and removed, and the run ends with a [TypeError]
    before the media endpoint is called. *)
Example numeric_title_run :
  let r :=
    process_media_and_post_async happy_env
      (PDict (fields (PInt 5) (int_list [1; 2]))) ∅ in
  result r = Raise (Exn TypeError "unsupported operand type(s) for +") ∧
  state_after r = ∅ ∧
  upstream_kinds (events r) = [Download] ∧
  List.filter is_file_event (events r) =
    [FileCreate "tmp/0b5e_k3.jpg"; FileWrite "tmp/0b5e_k3.jpg" "JFIF";
     FileRead "tmp/0b5e_k3.jpg"; FileUnlink "tmp/0b5e_k3.jpg"].
Proof. cbv zeta. split_and!; reflexivity. Qed.
